(** * Email vector store: a shallow embedding of [config.py] and
    [vector_db_manager.py]

    The manager class [VectorDBManager] is a thin layer over an embedding
    model (sentence_transformers), a persistent vector store (chromadb), the
    file system and the uuid generator.  None of those is part of the
    repository, so every call into them is an external [call] answered by an
    arbitrary responder; the methods of the class are programs in a state and
    exception monad whose state holds the attributes of [self], the state of
    the outside world, the log of external calls with their replies, and the
    lines printed so far. *)

From Stdlib Require Import ZArith Floats Sorted Lia.
From stdpp Require Import base strings gmap list pretty.

Local Open Scope Z_scope.
Local Open Scope string_scope.

(** ** Python values *)

(** The values an email record may carry ([Dict[str, Any]]), restricted to
    the scalar types: [None], [bool], [int] and [str]. *)
Inductive pyval : Type :=
| PNone
| PBool (b : bool)
| PInt (z : Z)
| PStr (s : string).

(** [bool(v)], the truth value tested by [if v] and [not v]. *)
Definition truthy (v : pyval) : bool :=
  match v with
  | PNone => false
  | PBool b => b
  | PInt z => negb (z =? 0)%Z
  | PStr s => negb (String.eqb s "")
  end.

(** [str(v)]. *)
Definition py_str (v : pyval) : string :=
  match v with
  | PNone => "None"
  | PBool true => "True"
  | PBool false => "False"
  | PInt z => pretty z
  | PStr s => s
  end.

(** An exception (an instance of [Exception]) is represented by its
    [str()]. *)
Definition exn : Type := string.

Inductive result (A : Type) : Type :=
| Ok (a : A)
| Raise (e : exn).
Arguments Ok {A} a.
Arguments Raise {A} e.

(** ** config.py *)

Module config.

(** A module-level constant of [config.py]. *)
Inductive setting : Type :=
| SNone
| SStr (s : string)
| SInt (z : Z)
| SList (l : list string).

Definition GROQ_API_KEY (getenv : string -> option string) : option string :=
  getenv "GROQ_API_KEY".
Definition GROQ_MODEL : string := "llama3-8b-8192".

Definition VECTOR_DB_PATH : string := "./vector_db".
Definition COLLECTION_NAME : string := "email_collection".

Definition EMBEDDING_MODEL : string := "all-MiniLM-L6-v2".

Definition MAX_FILE_SIZE : Z := 100 * 1024 * 1024.
Definition SUPPORTED_FORMATS : list string := [".csv"; ".json"; ".txt"; ".eml"].

Definition PAGE_TITLE : string := "Email Analysis System".
(** U+1F4E7 in UTF-8. *)
Definition PAGE_ICON : string :=
  String (Ascii.ascii_of_nat 240) (String (Ascii.ascii_of_nat 159)
    (String (Ascii.ascii_of_nat 147) (String (Ascii.ascii_of_nat 167) ""))).

(** The names the module defines, in source order, with their values. *)
Definition namespace (getenv : string -> option string)
  : list (string * setting) :=
  [ ("GROQ_API_KEY",
      match GROQ_API_KEY getenv with Some k => SStr k | None => SNone end);
    ("GROQ_MODEL", SStr GROQ_MODEL);
    ("VECTOR_DB_PATH", SStr VECTOR_DB_PATH);
    ("COLLECTION_NAME", SStr COLLECTION_NAME);
    ("EMBEDDING_MODEL", SStr EMBEDDING_MODEL);
    ("MAX_FILE_SIZE", SInt MAX_FILE_SIZE);
    ("SUPPORTED_FORMATS", SList SUPPORTED_FORMATS);
    ("PAGE_TITLE", SStr PAGE_TITLE);
    ("PAGE_ICON", SStr PAGE_ICON) ].

End config.

(** ** The outside world *)

(** References to objects owned by the external libraries. *)
Inductive model_ref : Type := ModelRef (id : nat).
Inductive client_ref : Type := ClientRef (id : nat).
Inductive collection_ref : Type := CollectionRef (id : nat).

(** An embedding vector, as [ndarray.tolist()] gives it. *)
Definition embedding : Type := list float.

(** The dictionary [collection.query] returns, at the three keys that
    [search_emails] reads.  A key that was not included holds [None]. *)
Record query_result : Type := QueryResult {
  qr_documents : option (list (list pyval));
  qr_metadatas : option (list (list (gmap string string)));
  qr_distances : option (list (list float))
}.

(** Every call that leaves the repository. *)
Inductive call : Type :=
| SentenceTransformer (model_name device : string)
| Encode (m : model_ref) (sentences : list pyval)
| Uuid4
| Makedirs (path : string) (exist_ok : bool)
| PathExists (path : string)
| Rmtree (path : string)
| PersistentClient (path : string) (anonymized_telemetry allow_reset : bool)
| GetCollection (cl : client_ref) (name : string)
| CreateCollection (cl : client_ref) (name : string)
    (metadata : gmap string string)
| DeleteCollection (cl : client_ref) (name : string)
| ClientReset (cl : client_ref)
| CollectionAdd (c : collection_ref) (embeddings : list embedding)
    (documents : list pyval) (metadatas : list (gmap string string))
    (ids : list string)
| CollectionQuery (c : collection_ref) (query_embeddings : list embedding)
    (n_results : Z) (include : list string)
| CollectionCount (c : collection_ref).

(** What a call returns when it does not raise.  [Encode] stands for
    [encode(...).tolist()] and [Uuid4] for [str(uuid.uuid4())]. *)
Definition reply (c : call) : Type :=
  match c with
  | SentenceTransformer _ _ => model_ref
  | Encode _ _ => list embedding
  | Uuid4 => string
  | Makedirs _ _ => unit
  | PathExists _ => bool
  | Rmtree _ => unit
  | PersistentClient _ _ _ => client_ref
  | GetCollection _ _ => collection_ref
  | CreateCollection _ _ _ => collection_ref
  | DeleteCollection _ _ => unit
  | ClientReset _ => unit
  | CollectionAdd _ _ _ _ _ => unit
  | CollectionQuery _ _ _ _ => query_result
  | CollectionCount _ => Z
  end.

(** One entry of the log: a call and what came back. *)
Inductive event : Type :=
| Ev (c : call) (r : result (reply c)).

(** ** The manager's attributes *)

Record manager : Type := Manager {
  db_path : string;
  collection_name : string;
  embedding_model : model_ref;
  client : option client_ref;
  collection : option collection_ref
}.

(** A search hit as [search_emails] formats it. *)
Record search_result : Type := SearchResult {
  document : pyval;
  metadata : gmap string string;
  distance : float
}.

(** ** The monad of the methods *)

(** The state a method runs in.  [W] is the state of the outside world. *)
Record state (W : Type) : Type := State {
  self : manager;
  world : W;
  trace : list event;
  stdout : list string
}.
Arguments State {W} self world trace stdout.
Arguments self {W} s.
Arguments world {W} s.
Arguments trace {W} s.
Arguments stdout {W} s.

(** A computation returns a value or raises; the state survives a raise, as
    Python's attribute writes and side effects do. *)
Definition M (W A : Type) : Type := state W -> result A * state W.

#[global] Instance M_ret {W} : MRet (M W) := fun A a s => (Ok a, s).

#[global] Instance M_bind {W} : MBind (M W) := fun A B k m s =>
  match m s with
  | (Ok a, s') => k a s'
  | (Raise e, s') => (Raise e, s')
  end.

(** [raise Exception(e)]. *)
Definition raise {W A} (e : exn) : M W A := fun s => (Raise e, s).

(** [try: body  except Exception as e: handler e]. *)
Definition try_except {W A} (body : M W A) (handler : exn -> M W A) : M W A :=
  fun s =>
    match body s with
    | (Ok a, s') => (Ok a, s')
    | (Raise e, s') => handler e s'
    end.

(** Read an attribute of [self]. *)
Definition attr {W A} (f : manager -> A) : M W A := fun s => (Ok (f (self s)), s).

(** [self.client = cl]. *)
Definition set_client {W} (cl : client_ref) : M W unit := fun s =>
  (Ok tt,
   State (Manager (db_path (self s)) (collection_name (self s))
            (embedding_model (self s)) (Some cl) (collection (self s)))
     (world s) (trace s) (stdout s)).

(** [self.collection = c]. *)
Definition set_collection {W} (c : collection_ref) : M W unit := fun s =>
  (Ok tt,
   State (Manager (db_path (self s)) (collection_name (self s))
            (embedding_model (self s)) (client (self s)) (Some c))
     (world s) (trace s) (stdout s)).

(** [print(line)]. *)
Definition print {W} (line : string) : M W unit := fun s =>
  (Ok tt, State (self s) (world s) (trace s) (stdout s ++ [line])).

(** Attribute access on an object that may be [None]. *)
Definition deref {W A} (o : option A) (attribute : string) : M W A :=
  match o with
  | Some x => mret x
  | None =>
      raise ("'NoneType' object has no attribute '" ++ attribute ++ "'")
  end.

(** [o[i]] where [o] is a list or [None]. *)
Definition subscript {W A} (o : option (list A)) (i : nat) : M W A :=
  match o with
  | None => raise "'NoneType' object is not subscriptable"
  | Some l =>
      match l !! i with
      | Some x => mret x
      | None => raise "list index out of range"
      end
  end.

(** ** VectorDBManager *)

Section VectorDBManager.

Context {W : Type}.

(** How the outside world answers a call: any reply of the right type, or
    an exception, and a new world. *)
Variable respond : forall c : call, W -> result (reply c) * W.

Local Abbreviation M := (M W).

(** Make the call, log it with its reply. *)
Definition ext (c : call) : M (reply c) := fun s =>
  let (r, w) := respond c (world s) in
  (r, State (self s) w (trace s ++ [Ev c r]) (stdout s)).

Definition collection_metadata : gmap string string :=
  {[ "description" := "Email data collection" ]}.

Definition _initialize_db : M unit :=
  try_except
    (path ← attr db_path;
     ext (Makedirs path true);;
     cl ← ext (PersistentClient path false true);
     set_client cl;;
     name ← attr collection_name;
     try_except
       (c ← ext (GetCollection cl name);
        set_collection c;;
        print ("Loaded existing collection: " ++ name))
       (fun _ =>
          c ← ext (CreateCollection cl name collection_metadata);
          set_collection c;;
          print ("Created new collection: " ++ name)))
    (fun e => raise ("Failed to initialize vector database: " ++ e)).

(** The constructor.  The attributes are written once the model is loaded:
    when loading raises, no object is handed to the caller. *)
Definition __init__ : M unit :=
  m ← ext (SentenceTransformer config.EMBEDDING_MODEL "cpu");
  (fun s => (Ok tt,
     State (Manager config.VECTOR_DB_PATH config.COLLECTION_NAME m None None)
       (world s) (trace s) (stdout s)));;
  _initialize_db.

(** [email_data.get('text_content', '')]. *)
Definition text_content (email_data : gmap string pyval) : pyval :=
  default (PStr "") (email_data !! "text_content").

(** [{k: str(v) for k, v in email_data.items() if k != 'text_content'}]. *)
Definition metadata_of (email_data : gmap string pyval) : gmap string string :=
  py_str <$> filter (fun kv => kv.1 ≠ "text_content") email_data.

(** The [for email_data in emails] loop over the three lists it appends
    to. *)
Fixpoint add_emails_loop (emails : list (gmap string pyval))
    (documents : list pyval) (metadatas : list (gmap string string))
    (ids : list string)
  : M (list pyval * list (gmap string string) * list string) :=
  match emails with
  | [] => mret (documents, metadatas, ids)
  | email_data :: rest =>
      if negb (truthy (text_content email_data)) then
        add_emails_loop rest documents metadatas ids
      else
        email_id ← ext Uuid4;
        add_emails_loop rest
          (documents ++ [text_content email_data])
          (metadatas ++ [metadata_of email_data])
          (ids ++ [email_id])
  end.

Definition add_emails (emails : list (gmap string pyval)) : M bool :=
  try_except
    (match emails with
     | [] => mret false
     | _ =>
         '(documents, metadatas, ids) ← add_emails_loop emails [] [] [];
         match documents with
         | [] => mret false
         | _ =>
             model ← attr embedding_model;
             embeddings ← ext (Encode model documents);
             o ← attr collection;
             c ← deref o "add";
             ext (CollectionAdd c embeddings documents metadatas ids);;
             print ("Successfully added " ++ pretty (length documents)
                      ++ " emails to vector database");;
             mret true
         end
     end)
    (fun e =>
       print ("Error adding emails to vector database: " ++ e);;
       mret false).

(** The [for i in range(len(results['documents'][0]))] loop. *)
Fixpoint format_results (results : query_result) (indices : list nat)
    (formatted_results : list search_result) : M (list search_result) :=
  match indices with
  | [] => mret formatted_results
  | i :: rest =>
      d0 ← subscript (qr_documents results) 0;
      d ← subscript (Some d0) i;
      m0 ← subscript (qr_metadatas results) 0;
      m ← subscript (Some m0) i;
      x0 ← subscript (qr_distances results) 0;
      x ← subscript (Some x0) i;
      format_results results rest (formatted_results ++ [SearchResult d m x])
  end.

(** [results['documents'] and results['documents'][0]] as a condition. *)
Definition has_documents (results : query_result) : bool :=
  match qr_documents results with
  | Some (d0 :: _) => bool_decide (d0 ≠ [])
  | _ => false
  end.

Definition search_emails (query : string) (n_results : Z)
  : M (list search_result) :=
  try_except
    (o ← attr collection;
     match o with
     | None => mret []
     | Some c =>
         model ← attr embedding_model;
         query_embedding ← ext (Encode model [PStr query]);
         results ← ext (CollectionQuery c query_embedding n_results
                          ["documents"; "metadatas"; "distances"]);
         if has_documents results then
           d0 ← subscript (qr_documents results) 0;
           format_results results (seq 0 (length d0)) []
         else mret []
     end)
    (fun e => print ("Error searching emails: " ++ e);; mret []).

(** The default of the parameter [n_results: int = 10]. *)
Definition n_results_default : Z := 10.

(** [search_emails(query)]. *)
Definition search_emails_default (query : string) : M (list search_result) :=
  search_emails query n_results_default.

Definition get_collection_info : M (gmap string pyval) :=
  try_except
    (o ← attr collection;
     match o with
     | None => mret ∅
     | Some c =>
         count ← ext (CollectionCount c);
         name ← attr collection_name;
         path ← attr db_path;
         mret (<["path" := PStr path]>
                 (<["count" := PInt count]> {[ "name" := PStr name ]}))
     end)
    (fun e => print ("Error getting collection info: " ++ e);; mret ∅).

(** The value is a Python object: a path that leaves the [try] block
    without a [return] makes the function return [None]. *)
Definition clear_collection : M pyval :=
  try_except
    (o ← attr collection;
     match o with
     | Some _ =>
         ocl ← attr client;
         cl ← deref ocl "delete_collection";
         name ← attr collection_name;
         ext (DeleteCollection cl name);;
         c ← ext (CreateCollection cl name collection_metadata);
         set_collection c;;
         mret (PBool true)
     | None => mret PNone
     end)
    (fun e => print ("Error clearing collection: " ++ e);; mret (PBool false)).

Definition delete_database : M bool :=
  try_except
    (ocl ← attr client;
     match ocl with
     | Some cl => ext (ClientReset cl)
     | None => mret tt
     end;;
     path ← attr db_path;
     there ← ext (PathExists path);
     (if there : bool then ext (Rmtree path) else mret tt);;
     _initialize_db;;
     mret true)
    (fun e => print ("Error deleting database: " ++ e);; mret false).

End VectorDBManager.

Arguments ext {W} respond c s.

(** The events a run appended to the log. *)
Definition new_events {W} (s s' : state W) : list event :=
  drop (length (trace s)) (trace s').

(** The replies of the [uuid4] calls in a log, in order. *)
Definition uuid_replies (log : list event) : list string :=
  omap (fun ev =>
          match ev with
          | Ev Uuid4 (Ok u) => Some u
          | _ => None
          end) log.

(** The log entries of successful [uuid4] calls with the given replies. *)
Definition uuid_events (us : list string) : list event :=
  (fun u : string => Ev Uuid4 (Ok u)) <$> us.

(** The records of a batch that [add_emails] keeps. *)
Definition kept (emails : list (gmap string pyval)) : list (gmap string pyval) :=
  filter (fun r => truthy (text_content r) = true) emails.

(** ** An in-memory stand-in for the outside world

    Used to run the methods on concrete inputs.  It holds one collection at
    most, hands out consecutive identifiers and answers a query with the
    stored items in insertion order, at growing distances. *)

Module Fake.

Record fake : Type := Fake {
  counter : nat;
  directory : bool;
  items : option (list (pyval * gmap string string))
}.

Definition fresh : fake := Fake 0 false None.

(** Distances 0.0, 1.0, 2.0, ... for the items of a query answer. *)
Fixpoint distances (n : nat) (from : float) : list float :=
  match n with
  | O => []
  | S n' => from :: distances n' (from + 1)%float
  end.

Definition answer (stored : list (pyval * gmap string string)) (n : Z)
  : query_result :=
  let hits := take (Z.to_nat n) stored in
  QueryResult (Some [hits.*1]) (Some [hits.*2])
    (Some [distances (length hits) 0%float]).

(** [failing c] makes the call [c] raise. *)
Definition respond (failing : call -> bool) (c : call) (w : fake)
  : result (reply c) * fake :=
  if failing c then (Raise "unavailable", w)
  else
    match c return result (reply c) * fake with
    | SentenceTransformer _ _ => (Ok (ModelRef 0), w)
    | Encode _ sentences => (Ok ((fun _ => [0%float]) <$> sentences), w)
    | Uuid4 =>
        (Ok ("uuid-" ++ pretty (counter w)),
         Fake (S (counter w)) (directory w) (items w))
    | Makedirs _ _ => (Ok tt, Fake (counter w) true (items w))
    | PathExists _ => (Ok (directory w), w)
    | Rmtree _ => (Ok tt, Fake (counter w) false (items w))
    | PersistentClient _ _ _ => (Ok (ClientRef 0), w)
    | GetCollection _ _ =>
        match items w with
        | Some _ => (Ok (CollectionRef 0), w)
        | None => (Raise "Collection does not exist", w)
        end
    | CreateCollection _ _ _ =>
        match items w with
        | Some _ => (Raise "Collection already exists", w)
        | None => (Ok (CollectionRef 0), Fake (counter w) (directory w) (Some []))
        end
    | DeleteCollection _ _ =>
        match items w with
        | Some _ => (Ok tt, Fake (counter w) (directory w) None)
        | None => (Raise "Collection does not exist", w)
        end
    | ClientReset _ => (Ok tt, Fake (counter w) (directory w) None)
    | CollectionAdd _ _ documents metadatas _ =>
        match items w with
        | Some stored =>
            (Ok tt, Fake (counter w) (directory w)
                      (Some (stored ++ zip documents metadatas)%list))
        | None => (Raise "Collection does not exist", w)
        end
    | CollectionQuery _ _ n _ =>
        match items w with
        | Some stored => (Ok (answer stored n), w)
        | None => (Raise "Collection does not exist", w)
        end
    | CollectionCount _ =>
        match items w with
        | Some stored => (Ok (Z.of_nat (length stored)), w)
        | None => (Raise "Collection does not exist", w)
        end
    end.

Definition reliable (c : call) : bool := false.

(** A manager that was never initialised, in a fresh world. *)
Definition blank : state fake :=
  State (Manager config.VECTOR_DB_PATH config.COLLECTION_NAME (ModelRef 0)
           None None) fresh [] [].

(** The state after a successful construction in a fresh world. *)
Definition ready : state fake := (__init__ (respond reliable) blank).2.

Definition hello : gmap string pyval :=
  <["text_content" := PStr "hello world"]> {[ "subject" := PStr "test" ]}.
Definition untexted : gmap string pyval :=
  <["text_content" := PStr ""]> {[ "subject" := PStr "draft" ]}.
Definition bare : gmap string pyval := {[ "size" := PInt 42 ]}.

(** The state after [hello] was added to [ready]. *)
Definition stocked : state fake :=
  (add_emails (respond reliable) [hello; untexted; bare] ready).2.

(** Worlds in which one kind of call raises. *)
Definition no_model (c : call) : bool :=
  match c with Encode _ _ => true | _ => false end.
Definition no_query (c : call) : bool :=
  match c with CollectionQuery _ _ _ _ => true | _ => false end.
Definition no_count (c : call) : bool :=
  match c with CollectionCount _ => true | _ => false end.
Definition no_rmtree (c : call) : bool :=
  match c with Rmtree _ => true | _ => false end.
Definition no_add (c : call) : bool :=
  match c with CollectionAdd _ _ _ _ _ => true | _ => false end.
Definition no_create (c : call) : bool :=
  match c with CreateCollection _ _ _ => true | _ => false end.
Definition no_reset (c : call) : bool :=
  match c with ClientReset _ => true | _ => false end.
Definition no_client (c : call) : bool :=
  match c with PersistentClient _ _ _ => true | _ => false end.

(** A store that leaves the metadata out of its answers. *)
Definition forgetful (c : call) (w : fake) : result (reply c) * fake :=
  match c as c0 return result (reply c0) * fake with
  | CollectionQuery _ _ n _ =>
      match items w with
      | Some stored =>
          (Ok (QueryResult (qr_documents (answer stored n)) None
                 (qr_distances (answer stored n))), w)
      | None => (Raise "Collection does not exist", w)
      end
  | c0 => respond reliable c0 w
  end.

(** Records whose text is present but false as a condition. *)
Definition nulled : gmap string pyval :=
  <["text_content" := PNone]> {[ "subject" := PStr "void" ]}.
Definition zeroed : gmap string pyval :=
  <["text_content" := PInt 0]> {[ "subject" := PStr "zero" ]}.

End Fake.


(** ** Vocabulary of the statements *)

(** What a log entry of [add_emails] may be, for the batch it keeps. *)
Definition batch_event (me : manager) (batch : list (gmap string pyval))
    (ev : event) : Prop :=
  match ev with
  | Ev Uuid4 _ => True
  | Ev (Encode m sentences) _ =>
      m = embedding_model me /\ sentences = text_content <$> batch
  | Ev (CollectionAdd c _ documents metadatas ids) _ =>
      collection me = Some c /\
      documents = text_content <$> batch /\
      metadatas = metadata_of <$> batch /\
      length ids = length batch
  | _ => False
  end.

(** The hits that three parallel lists of a query answer stand for. *)
Fixpoint hits_of (docs : list pyval) (metas : list (gmap string string))
    (dists : list float) : list search_result :=
  match docs, metas, dists with
  | d :: docs', m :: metas', x :: dists' =>
      SearchResult d m x :: hits_of docs' metas' dists'
  | _, _, _ => []
  end.

(** Ascending order of distances. *)
Definition ascending (dists : list float) : Prop :=
  Sorted (fun a b => (a <=? b)%float = true) dists.

Definition is_raise {A} (r : result A) : bool :=
  match r with
  | Raise _ => true
  | Ok _ => false
  end.

(** A call whose exception makes the method fail.  The exception of
    [get_collection] is handled inside [_initialize_db], by creating the
    collection. *)
Definition failed (ev : event) : bool :=
  match ev with
  | Ev c r =>
      match c return result (reply c) -> bool with
      | GetCollection _ _ => fun _ => false
      | _ => fun r => is_raise r
      end r
  end.

(** The function or method an event is a call of. *)
Definition call_name (ev : event) : string :=
  match ev with
  | Ev (SentenceTransformer _ _) _ => "SentenceTransformer"
  | Ev (Encode _ _) _ => "encode"
  | Ev Uuid4 _ => "uuid4"
  | Ev (Makedirs _ _) _ => "makedirs"
  | Ev (PathExists _) _ => "exists"
  | Ev (Rmtree _) _ => "rmtree"
  | Ev (PersistentClient _ _ _) _ => "PersistentClient"
  | Ev (GetCollection _ _) _ => "get_collection"
  | Ev (CreateCollection _ _ _) _ => "create_collection"
  | Ev (DeleteCollection _ _) _ => "delete_collection"
  | Ev (ClientReset _) _ => "reset"
  | Ev (CollectionAdd _ _ _ _ _) _ => "add"
  | Ev (CollectionQuery _ _ _ _) _ => "query"
  | Ev (CollectionCount _) _ => "count"
  end.

(** The successful reset of the client, when there is one. *)
Definition reset_log (me : manager) : list event :=
  match client me with
  | Some cl => [Ev (ClientReset cl) (Ok tt)]
  | None => []
  end.

(** The successful removal of the directory, when it is there. *)
Definition removal_log (path : string) (there : bool) : list event :=
  Ev (PathExists path) (Ok there)
  :: if there then [Ev (Rmtree path) (Ok tt)] else [].

(** Every call on a collection that the event makes is made on [c]. *)
Definition addresses (c : collection_ref) (ev : event) : Prop :=
  match ev with
  | Ev (CollectionAdd c' _ _ _ _) _ => c' = c
  | Ev (CollectionQuery c' _ _ _) _ => c' = c
  | Ev (CollectionCount c') _ => c' = c
  | _ => True
  end.

(** How a run of [add_emails] that keeps the batch [batch] ends, after the
    [uuid4] calls that returned [us]: the calls that follow, the value
    returned and the line printed. *)
Inductive add_tail (me : manager) (batch : list (gmap string pyval))
    (us : list string) : list event -> bool -> string -> Prop :=
| tail_uuid4_raised (e : exn) :
    (length us < length batch)%nat ->
    add_tail me batch us
      [Ev Uuid4 (Raise e)]
      false ("Error adding emails to vector database: " ++ e)
| tail_encode_raised (e : exn) :
    length us = length batch ->
    add_tail me batch us
      [Ev (Encode (embedding_model me) (text_content <$> batch)) (Raise e)]
      false ("Error adding emails to vector database: " ++ e)
| tail_no_collection (embeddings : list embedding) :
    length us = length batch ->
    collection me = None ->
    add_tail me batch us
      [Ev (Encode (embedding_model me) (text_content <$> batch))
         (Ok embeddings)]
      false
      ("Error adding emails to vector database: "
         ++ "'NoneType' object has no attribute 'add'")
| tail_add_raised (c : collection_ref) (embeddings : list embedding) (e : exn) :
    length us = length batch ->
    collection me = Some c ->
    add_tail me batch us
      [ Ev (Encode (embedding_model me) (text_content <$> batch))
          (Ok embeddings);
        Ev (CollectionAdd c embeddings (text_content <$> batch)
              (metadata_of <$> batch) us) (Raise e) ]
      false ("Error adding emails to vector database: " ++ e)
| tail_added (c : collection_ref) (embeddings : list embedding) :
    length us = length batch ->
    collection me = Some c ->
    add_tail me batch us
      [ Ev (Encode (embedding_model me) (text_content <$> batch))
          (Ok embeddings);
        Ev (CollectionAdd c embeddings (text_content <$> batch)
              (metadata_of <$> batch) us) (Ok tt) ]
      true
      ("Successfully added " ++ pretty (length batch)
         ++ " emails to vector database").

(** [answer[key][0]] where it exists: the list that belongs to the one
    query embedding [search_emails] sends. *)
Definition first_list {A} (o : option (list (list A))) : list A :=
  match o with
  | Some (l :: _) => l
  | _ => []
  end.

(** The hit [h] is made of the entries at position [i] of the answer. *)
Definition hit_at (results : query_result) (i : nat) (h : search_result)
  : Prop :=
  first_list (qr_documents results) !! i = Some (document h)
  /\ first_list (qr_metadatas results) !! i = Some (metadata h)
  /\ first_list (qr_distances results) !! i = Some (distance h).

(** How a run of [search_emails] on a manager with the collection [c]
    ends: the calls made, the hits returned and the lines printed. *)
Inductive search_tail (me : manager) (c : collection_ref) (query : string)
    (n : Z) : list event -> list search_result -> list string -> Prop :=
| search_encode_raised (e : exn) :
    search_tail me c query n
      [Ev (Encode (embedding_model me) [PStr query]) (Raise e)]
      [] [("Error searching emails: " ++ e)%string]
| search_query_raised (q : list embedding) (e : exn) :
    search_tail me c query n
      [ Ev (Encode (embedding_model me) [PStr query]) (Ok q);
        Ev (CollectionQuery c q n ["documents"; "metadatas"; "distances"])
          (Raise e) ]
      [] [("Error searching emails: " ++ e)%string]
| search_format_raised (q : list embedding) (results : query_result) (e : exn) :
    first_list (qr_documents results) <> [] ->
    search_tail me c query n
      [ Ev (Encode (embedding_model me) [PStr query]) (Ok q);
        Ev (CollectionQuery c q n ["documents"; "metadatas"; "distances"])
          (Ok results) ]
      [] [("Error searching emails: " ++ e)%string]
| search_answered (q : list embedding) (results : query_result)
    (hits : list search_result) :
    Forall2 (hit_at results)
      (seq 0 (length (first_list (qr_documents results)))) hits ->
    search_tail me c query n
      [ Ev (Encode (embedding_model me) [PStr query]) (Ok q);
        Ev (CollectionQuery c q n ["documents"; "metadatas"; "distances"])
          (Ok results) ]
      hits [].

(** The answer of the store that an event of the log carries, if any. *)
Definition answer_of (ev : event) : option query_result :=
  match ev with
  | Ev (CollectionQuery _ _ _ _) (Ok results) => Some results
  | _ => None
  end.

(** The exception an event of the log ended in, if any. *)
Definition error_of (ev : event) : option exn :=
  match ev with
  | Ev _ (Raise e) => Some e
  | Ev _ (Ok _) => None
  end.

(** A manager with its client and its collection set. *)
Definition initialized (me : manager) : Prop :=
  is_Some (client me) /\ is_Some (collection me).

(** A call of one of the five public methods, as a user of the class makes
    it. *)
Inductive method : Type :=
| AddEmails (emails : list (gmap string pyval))
| SearchEmails (query : string) (n_results : Z)
| GetCollectionInfo
| ClearCollection
| DeleteDatabase.

(** The state after a call; the value returned is dropped. *)
Definition after_call {W} (respond : forall c : call, W -> result (reply c) * W)
    (m : method) (s : state W) : state W :=
  match m with
  | AddEmails emails => (add_emails respond emails s).2
  | SearchEmails query n => (search_emails respond query n s).2
  | GetCollectionInfo => (get_collection_info respond s).2
  | ClearCollection => (clear_collection respond s).2
  | DeleteDatabase => (delete_database respond s).2
  end.

(** The state after a sequence of calls, made in order. *)
Definition after_calls {W} (respond : forall c : call, W -> result (reply c) * W)
    (ms : list method) (s : state W) : state W :=
  foldl (fun s m => after_call respond m s) s ms.

(** How a run of [clear_collection] on a manager that has a collection
    ends: the calls made, the boolean returned, the lines printed and the
    attributes left. *)
Inductive clear_tail (me : manager)
  : list event -> bool -> list string -> manager -> Prop :=
| clear_no_client :
    client me = None ->
    clear_tail me [] false
      [("Error clearing collection: "
          ++ "'NoneType' object has no attribute 'delete_collection'")%string]
      me
| clear_delete_raised (cl : client_ref) (e : exn) :
    client me = Some cl ->
    clear_tail me
      [Ev (DeleteCollection cl (collection_name me)) (Raise e)]
      false [("Error clearing collection: " ++ e)%string] me
| clear_create_raised (cl : client_ref) (e : exn) :
    client me = Some cl ->
    clear_tail me
      [ Ev (DeleteCollection cl (collection_name me)) (Ok tt);
        Ev (CreateCollection cl (collection_name me) collection_metadata)
          (Raise e) ]
      false [("Error clearing collection: " ++ e)%string] me
| clear_done (cl : client_ref) (c' : collection_ref) :
    client me = Some cl ->
    clear_tail me
      [ Ev (DeleteCollection cl (collection_name me)) (Ok tt);
        Ev (CreateCollection cl (collection_name me) collection_metadata)
          (Ok c') ]
      true []
      (Manager (db_path me) (collection_name me) (embedding_model me)
         (Some cl) (Some c')).

(** A failed call is the last call. *)
Definition fails_last (log : list event) : Prop :=
  forall (i : nat) (ev : event),
    log !! i = Some ev -> failed ev = true -> S i = length log.

(** * Properties *)

Local Open Scope list_scope.

(** Unfold the monad's operations. *)
Ltac unfold_monad :=
  unfold mbind, M_bind, mret, M_ret, try_except, attr, deref, print, raise,
    set_client, set_collection, ext in *.

(** Case split on the reply to the first external call left in the goal. *)
Ltac answer_call respond :=
  match goal with
  | |- context [ respond ?c ?w ] =>
      let E := fresh "E" in
      destruct (respond c w) as [[?|?] ?] eqn:E; cbn
  end.

(** The same in a hypothesis. *)
Ltac answer_in respond H :=
  match type of H with
  | context [ respond ?c ?w ] =>
      let E := fresh "E" in
      destruct (respond c w) as [[?|?] ?] eqn:E; cbn in H
  end.

(** ** Runs on the stand-in *)

(** A search on a collection that was just created finds nothing. *)
Example search_on_fresh_collection :
  (search_emails (Fake.respond Fake.reliable) "anything" 10 Fake.ready).1
  = Ok [].
Proof. vm_compute. reflexivity. Qed.

(** The record that was added comes back, with its metadata under [str]. *)
Example search_finds_added_record :
  (search_emails (Fake.respond Fake.reliable) "hello world" 1 Fake.stocked).1
  = Ok [SearchResult (PStr "hello world") {[ "subject" := "test" ]} 0%float].
Proof. vm_compute. reflexivity. Qed.

(** Clearing an initialised manager returns [True] and leaves no item. *)
Example clear_then_count :
  (clear_collection (Fake.respond Fake.reliable) Fake.stocked).1
  = Ok (PBool true)
  /\ (get_collection_info (Fake.respond Fake.reliable)
        (clear_collection (Fake.respond Fake.reliable) Fake.stocked).2).1
     = Ok (<["path" := PStr "./vector_db"]>
             (<["count" := PInt 0]> {[ "name" := PStr "email_collection" ]})).
Proof. split; vm_compute; reflexivity. Qed.

(** Deleting the database leaves an empty collection that accepts items. *)
Example delete_then_add :
  (add_emails (Fake.respond Fake.reliable) [Fake.hello]
     (delete_database (Fake.respond Fake.reliable) Fake.stocked).2).1
  = Ok true
  /\ Fake.items
       (world (delete_database (Fake.respond Fake.reliable) Fake.stocked).2)
     = Some [].
Proof. split; vm_compute; reflexivity. Qed.

(** [str] of the scalar values. *)
Example py_str_values :
  py_str <$> [PNone; PBool true; PInt (-42); PStr "a b"]
  = ["None"; "True"; "-42"; "a b"].
Proof. vm_compute. reflexivity. Qed.

Section Batch.

Context {W : Type} (respond : forall c : call, W -> result (reply c) * W).

Implicit Types (emails : list (gmap string pyval)) (s : state W).

Lemma absent_or_empty_not_truthy (r : gmap string pyval) :
  r !! "text_content" = None \/ r !! "text_content" = Some (PStr "") ->
  truthy (text_content r) = false.
Proof. unfold text_content. intros [-> | ->]; reflexivity. Qed.

Lemma kept_nil_iff emails :
  kept emails = [] <-> Forall (fun r => truthy (text_content r) = false) emails.
Proof.
  unfold kept. induction emails as [|r emails IH]; [by split|].
  rewrite filter_cons, Forall_cons. case_decide as Hr.
  - split; [discriminate|]. intros [Hf _]. congruence.
  - rewrite IH. apply not_true_is_false in Hr. tauto.
Qed.

Lemma kept_skip before (r : gmap string pyval) after :
  truthy (text_content r) = false ->
  kept (before ++ r :: after) = kept (before ++ after).
Proof.
  intros Hr. unfold kept. rewrite !filter_app, filter_cons.
  case_decide; [congruence | reflexivity].
Qed.

(** The loop sees only the records it keeps. *)
Lemma add_emails_loop_kept emails : forall documents metadatas ids s,
  add_emails_loop respond emails documents metadatas ids s
  = add_emails_loop respond (kept emails) documents metadatas ids s.
Proof.
  induction emails as [|r emails IH]; intros documents metadatas ids s;
    [reflexivity|].
  unfold kept. rewrite filter_cons. fold (kept emails).
  destruct (truthy (text_content r)) eqn:Hr; cbn [add_emails_loop].
  - rewrite decide_True by reflexivity. cbn [add_emails_loop].
    rewrite Hr. cbn [negb]. unfold_monad.
    destruct (respond Uuid4 (world s)) as [[u|e] w]; [apply IH|reflexivity].
  - rewrite decide_False by discriminate. rewrite Hr. cbn [negb]. apply IH.
Qed.

(** So does the whole method. *)
Lemma add_emails_kept emails s :
  add_emails respond emails s = add_emails respond (kept emails) s.
Proof.
  destruct emails as [|r emails]; [reflexivity|].
  unfold add_emails, try_except, mbind, M_bind.
  rewrite add_emails_loop_kept.
  destruct (kept (r :: emails)) as [|r' rest] eqn:Hk; reflexivity.
Qed.

(** What the loop leaves behind: one [uuid4] call for each record kept, in
    order, and the three lists extended in step. *)
Lemma add_emails_loop_inv emails : forall documents metadatas ids s res s',
  add_emails_loop respond emails documents metadatas ids s = (res, s') ->
  self s' = self s /\ stdout s' = stdout s /\
  match res with
  | Ok (documents', metadatas', ids') =>
      exists us,
        length us = length (kept emails) /\
        documents' = documents ++ (text_content <$> kept emails) /\
        metadatas' = metadatas ++ (metadata_of <$> kept emails) /\
        ids' = ids ++ us /\
        trace s' = trace s ++ uuid_events us
  | Raise e =>
      exists us, trace s' = trace s ++ uuid_events us ++ [Ev Uuid4 (Raise e)]
  end.
Proof.
  induction emails as [|r emails IH]; intros documents metadatas ids s res s' Hrun.
  - cbn in Hrun. unfold_monad. inversion Hrun; subst.
    repeat split. exists []. cbn. by rewrite !app_nil_r.
  - cbn [add_emails_loop] in Hrun. unfold kept. rewrite filter_cons.
    fold (kept emails).
    destruct (truthy (text_content r)) eqn:Hr; cbn [negb] in Hrun.
    + rewrite decide_True by reflexivity. unfold_monad.
      destruct (respond Uuid4 (world s)) as [[u|e] w] eqn:E.
      * apply IH in Hrun as (Hself & Hout & Hres). cbn in Hself, Hout.
        split; [done|]. split; [done|].
        destruct res as [[[documents' metadatas'] ids']|e].
        -- destruct Hres as (us & Hlen & -> & -> & -> & Htr). cbn in Htr.
           exists (u :: us). cbn. rewrite Hlen, Htr, <- !app_assoc. done.
        -- destruct Hres as (us & Htr). cbn in Htr.
           exists (u :: us). rewrite Htr, <- !app_assoc. done.
      * inversion Hrun; subst. cbn. repeat split. by exists [].
    + rewrite decide_False by discriminate. by apply IH.
Qed.

Lemma uuid_events_batch me batch us :
  Forall (batch_event me batch) (uuid_events us).
Proof. unfold uuid_events. apply Forall_fmap, Forall_true. done. Qed.

(** Every run of [add_emails] returns a boolean, leaves the attributes
    alone, and makes no call but for the batch it keeps. *)
Lemma add_emails_inv emails s res s' :
  add_emails respond emails s = (res, s') ->
  self s' = self s /\
  (exists b, res = Ok b) /\
  exists log, trace s' = trace s ++ log /\
              Forall (batch_event (self s) (kept emails)) log.
Proof.
  intros Hrun. unfold add_emails, try_except in Hrun.
  destruct emails as [|r rest].
  { unfold_monad. inversion Hrun; subst. split; [done|]. split; [by eexists|].
    exists []. by rewrite app_nil_r. }
  cbv beta iota in Hrun. remember (r :: rest) as emails eqn:Hemails.
  unfold mbind at 1 in Hrun. unfold M_bind at 1 in Hrun.
  destruct (add_emails_loop respond emails [] [] [] s)
    as [[[[documents metadatas] ids]|e] s1] eqn:Hloop;
    apply add_emails_loop_inv in Hloop as (Hself & Hout & Hres);
    remember (kept emails) as batch eqn:Hbatch.
  - destruct Hres as (us & Hlen & -> & -> & -> & Htr). cbn [app] in *.
    destruct (text_content <$> batch) as [|d ds] eqn:Hd.
    { unfold_monad. inversion Hrun; subst. split; [done|]. split; [by eexists|].
      exists (uuid_events us). split; [done|]. apply uuid_events_batch. }
    rewrite <- Hd in *. clear Hd d ds.
    unfold_monad. cbn in Hrun. rewrite Hself in Hrun. answer_in respond Hrun.
    + destruct (collection (self s)) as [c|] eqn:Hc; cbn in Hrun.
      * answer_in respond Hrun; inversion Hrun; subst; cbn;
          (split; [done|]); (split; [by eexists|]);
          eexists; (split; [rewrite Htr, <- !app_assoc; reflexivity|]);
          (apply Forall_app; split; [apply uuid_events_batch|]);
          repeat constructor; cbn; done.
      * inversion Hrun; subst; cbn.
        split; [done|]. split; [by eexists|].
        eexists. split; [rewrite Htr, <- !app_assoc; reflexivity|].
        apply Forall_app; split; [apply uuid_events_batch|].
        repeat constructor; cbn; done.
    + inversion Hrun; subst; cbn.
      split; [done|]. split; [by eexists|].
      eexists. split; [rewrite Htr, <- !app_assoc; reflexivity|].
      apply Forall_app; split; [apply uuid_events_batch|].
      repeat constructor; cbn; done.
  - destruct Hres as (us & Htr). unfold_monad. inversion Hrun; subst; cbn.
    split; [done|]. split; [by eexists|].
    eexists. split; [exact Htr|].
    apply Forall_app; split; [apply uuid_events_batch|].
    repeat constructor; cbn; done.
Qed.

(** A run that returns [True] made exactly these calls, all successful:
    one [uuid4] for each record kept, one [encode] of the kept texts, one
    [collection.add] of the three lists and the embeddings. *)
Lemma add_emails_true_inv emails s s' :
  add_emails respond emails s = (Ok true, s') ->
  exists us embeddings c,
    kept emails <> [] /\
    collection (self s) = Some c /\
    length us = length (kept emails) /\
    trace s' = trace s ++ uuid_events us ++
      [ Ev (Encode (embedding_model (self s)) (text_content <$> kept emails))
          (Ok embeddings);
        Ev (CollectionAdd c embeddings (text_content <$> kept emails)
              (metadata_of <$> kept emails) us) (Ok tt) ].
Proof.
  intros Hrun. unfold add_emails, try_except in Hrun.
  destruct emails as [|r rest].
  { unfold_monad. inversion Hrun. }
  cbv beta iota in Hrun. remember (r :: rest) as emails eqn:Hemails.
  unfold mbind at 1 in Hrun. unfold M_bind at 1 in Hrun.
  destruct (add_emails_loop respond emails [] [] [] s)
    as [[[[documents metadatas] ids]|e] s1] eqn:Hloop;
    apply add_emails_loop_inv in Hloop as (Hself & Hout & Hres);
    remember (kept emails) as batch eqn:Hbatch.
  - destruct Hres as (us & Hlen & -> & -> & -> & Htr). cbn [app] in *.
    destruct (text_content <$> batch) as [|d ds] eqn:Hd.
    { unfold_monad. inversion Hrun. }
    rewrite <- Hd in *.
    assert (Hne : batch <> []) by (intros Hb; rewrite Hb in Hd; discriminate).
    clear Hd d ds.
    unfold_monad. cbn in Hrun. rewrite Hself in Hrun. answer_in respond Hrun.
    + destruct (collection (self s)) as [c|] eqn:Hc; cbn in Hrun.
      * answer_in respond Hrun; inversion Hrun; subst; cbn.
        match goal with
        | u : reply (CollectionAdd _ _ _ _ _) |- _ => destruct u
        end.
        eexists us, _, c. repeat (split; [done|]).
        rewrite Htr, <- !app_assoc. reflexivity.
      * inversion Hrun.
    + inversion Hrun.
  - unfold_monad. inversion Hrun.
Qed.

End Batch.

(** ** Facts about the log and about metadata *)

Lemma new_events_app {W} (s s' : state W) log :
  trace s' = trace s ++ log -> new_events s s' = log.
Proof. unfold new_events. intros ->. apply drop_app_length. Qed.

Lemma new_events_same {W} (s : state W) : new_events s s = [].
Proof. apply new_events_app. by rewrite app_nil_r. Qed.

Lemma uuid_replies_app log1 log2 :
  uuid_replies (log1 ++ log2) = uuid_replies log1 ++ uuid_replies log2.
Proof. apply omap_app. Qed.

Lemma uuid_replies_events us : uuid_replies (uuid_events us) = us.
Proof.
  unfold uuid_replies, uuid_events.
  induction us as [|u us IH]; cbn; [done | by f_equal].
Qed.

(** The metadata of a record: its fields other than the text, each under
    [str]. *)
Lemma metadata_of_lookup (r : gmap string pyval) (k : string) :
  metadata_of r !! k
  = if decide (k = "text_content") then None else py_str <$> r !! k.
Proof.
  unfold metadata_of. rewrite lookup_fmap, map_lookup_filter.
  destruct (r !! k) as [v|]; cbn; [|by case_decide].
  case_decide as Hk; subst.
  - rewrite option_guard_False; [done|]. cbn. tauto.
  - rewrite option_guard_True; done.
Qed.

Lemma metadata_of_dom (r : gmap string pyval) :
  dom (metadata_of r) = dom r ∖ {[ "text_content" ]}.
Proof.
  apply set_eq. intros k.
  rewrite elem_of_difference, !elem_of_dom, metadata_of_lookup, elem_of_singleton.
  case_decide as Hk.
  - split; [intros [? ?]; discriminate | tauto].
  - rewrite fmap_is_Some. tauto.
Qed.

(** ** Adding records *)

Section AddEmails.

Context {W : Type} (respond : forall c : call, W -> result (reply c) * W).

(** C1: a record whose text field is absent or empty is never embedded and
    never stored.  The run on a batch that holds such a record is the run
    on the batch without it, result and final state alike; and every call
    the run makes is a [uuid4], the [encode] of the texts of the other
    records that are kept, or the [collection.add] of their documents,
    their metadata and as many identifiers. *)
Theorem add_emails_skips_record_without_text
    (before : list (gmap string pyval)) (r : gmap string pyval)
    (after : list (gmap string pyval)) (s : state W) :
  r !! "text_content" = None \/ r !! "text_content" = Some (PStr "") ->
  add_emails respond (before ++ r :: after) s
  = add_emails respond (before ++ after) s
  /\ (r ∉ kept (before ++ r :: after))
  /\ Forall (batch_event (self s) (kept (before ++ after)))
       (new_events s (add_emails respond (before ++ r :: after) s).2).
Proof.
  intros Hr. apply absent_or_empty_not_truthy in Hr.
  split; [|split].
  - rewrite add_emails_kept, (add_emails_kept _ (before ++ after)).
    by rewrite kept_skip.
  - unfold kept. rewrite list_elem_of_filter. intros [Ht _]. congruence.
  - destruct (add_emails respond (before ++ r :: after) s) as [res s'] eqn:Hrun.
    apply add_emails_inv in Hrun as (_ & _ & log & Htr & Hlog).
    cbn. rewrite (new_events_app _ _ _ Htr). by rewrite kept_skip in Hlog.
Qed.

(** C2: when no record of the batch has text (the empty batch included),
    [add_emails] returns [False] and the state it ends in is the state it
    started in: no call was made, so nothing was embedded or inserted and
    the collection holds what it held. *)
Theorem add_emails_nothing_to_add
    (emails : list (gmap string pyval)) (s : state W) :
  kept emails = [] ->
  add_emails respond emails s = (Ok false, s)
  /\ new_events s (add_emails respond emails s).2 = []
  /\ get_collection_info respond (add_emails respond emails s).2
     = get_collection_info respond s.
Proof.
  intros Hk.
  assert (Hrun : add_emails respond emails s = (Ok false, s))
    by (rewrite add_emails_kept, Hk; reflexivity).
  rewrite Hrun. cbn. split; [done|]. split; [apply new_events_same | done].
Qed.

End AddEmails.

Lemma add_emails_skips_record_without_text_witness :
  (Fake.untexted !! "text_content" = None
   \/ Fake.untexted !! "text_content" = Some (PStr ""))
  /\ add_emails (Fake.respond Fake.reliable)
       ([Fake.hello] ++ Fake.untexted :: [Fake.bare]) Fake.ready
     = add_emails (Fake.respond Fake.reliable)
         ([Fake.hello] ++ [Fake.bare]) Fake.ready.
Proof.
  assert (H : Fake.untexted !! "text_content" = None
              \/ Fake.untexted !! "text_content" = Some (PStr ""))
    by (right; reflexivity).
  split; [exact H|].
  exact (proj1 (add_emails_skips_record_without_text
                  (Fake.respond Fake.reliable) [Fake.hello] Fake.untexted
                  [Fake.bare] Fake.ready H)).
Defined.

Lemma add_emails_nothing_to_add_witness :
  kept [Fake.untexted; Fake.bare] = []
  /\ add_emails (Fake.respond Fake.reliable) [Fake.untexted; Fake.bare] Fake.ready
     = (Ok false, Fake.ready).
Proof.
  assert (H : kept [Fake.untexted; Fake.bare] = []) by reflexivity.
  split; [exact H|].
  exact (proj1 (add_emails_nothing_to_add (Fake.respond Fake.reliable)
                  [Fake.untexted; Fake.bare] Fake.ready H)).
Defined.

Section StoredItems.

Context {W : Type} (respond : forall c : call, W -> result (reply c) * W).

(** C8: in an [add_emails] that returns [True], the item built for the
    [i]-th record kept has
    - as identifier the string the [i]-th [uuid4] call of this run
      returned, one call for each record; the identifiers are pairwise
      distinct and new whenever the generator never repeats itself;
    - as embedding the model's: the embeddings handed to the collection are
      the reply to [encode] on the kept texts, the record's own at
      position [i];
    - as metadata the mapping whose keys are the record's keys other than
      the text key and whose values are the record's under [str]. *)
Theorem add_emails_builds_stored_items
    (emails : list (gmap string pyval)) (s s' : state W) :
  add_emails respond emails s = (Ok true, s') ->
  exists c embeddings documents metadatas ids,
    new_events s s'
    = uuid_events ids ++
      [ Ev (Encode (embedding_model (self s)) documents) (Ok embeddings);
        Ev (CollectionAdd c embeddings documents metadatas ids) (Ok tt) ]
    /\ ids = uuid_replies (new_events s s')
    /\ (NoDup (uuid_replies (trace s')) ->
        NoDup ids /\ forall u, u ∈ ids -> u ∉ uuid_replies (trace s))
    /\ forall (i : nat) (r : gmap string pyval),
         kept emails !! i = Some r ->
         (exists u, ids !! i = Some u
                    /\ new_events s s' !! i = Some (Ev Uuid4 (Ok u)))
         /\ documents !! i = Some (text_content r)
         /\ exists m : gmap string string,
              metadatas !! i = Some m
              /\ dom m = dom r ∖ {[ "text_content" ]}
              /\ m !! "text_content" = None
              /\ forall k, k <> "text_content" -> m !! k = py_str <$> r !! k.
Proof.
  intros Hrun.
  apply add_emails_true_inv in Hrun as (us & embeddings & c & Hne & Hc & Hlen & Htr).
  exists c, embeddings, (text_content <$> kept emails),
    (metadata_of <$> kept emails), us.
  rewrite (new_events_app _ _ _ Htr).
  split; [done|]. split; [|split].
  - rewrite uuid_replies_app, uuid_replies_events. cbn. by rewrite app_nil_r.
  - rewrite Htr, !uuid_replies_app, uuid_replies_events. cbn.
    rewrite app_nil_r. intros Hnd.
    apply NoDup_app in Hnd as (_ & Hfresh & Hnd). split; [done|].
    intros u Hu Hold. by apply (Hfresh u).
  - intros i r Hi. split; [|split].
    + destruct (lookup_lt_is_Some_2 us i) as [u Hu].
      { rewrite Hlen. eapply lookup_lt_Some, Hi. }
      exists u. split; [done|].
      rewrite lookup_app_l.
      * unfold uuid_events. by rewrite list_lookup_fmap, Hu.
      * unfold uuid_events. rewrite length_fmap. eapply lookup_lt_Some, Hu.
    + by rewrite list_lookup_fmap, Hi.
    + exists (metadata_of r). rewrite list_lookup_fmap, Hi.
      split; [done|]. split; [apply metadata_of_dom|].
      split; [by rewrite metadata_of_lookup, decide_True|].
      intros k Hk. by rewrite metadata_of_lookup, decide_False.
Qed.

(** C10: in an [add_emails] that returns [True], the documents, the
    metadata mappings and the identifiers handed to [collection.add] are
    lists of one length, and at every index the three entries come from
    one input record: the document is its text, the metadata mapping is
    built from it, and the identifier is the one generated in its turn of
    the loop.  The records appear in input order. *)
Theorem add_emails_lists_correspond
    (emails : list (gmap string pyval)) (s s' : state W) :
  add_emails respond emails s = (Ok true, s') ->
  exists c embeddings documents metadatas ids,
    last (trace s')
    = Some (Ev (CollectionAdd c embeddings documents metadatas ids) (Ok tt))
    /\ length documents = length metadatas
    /\ length metadatas = length ids
    /\ kept emails `sublist_of` emails
    /\ forall i : nat, (i < length documents)%nat ->
         exists r : gmap string pyval,
           kept emails !! i = Some r
           /\ r ∈ emails
           /\ documents !! i = Some (text_content r)
           /\ metadatas !! i = Some (metadata_of r)
           /\ ids !! i = uuid_replies (new_events s s') !! i.
Proof.
  intros Hrun.
  apply add_emails_true_inv in Hrun as (us & embeddings & c & Hne & Hc & Hlen & Htr).
  exists c, embeddings, (text_content <$> kept emails),
    (metadata_of <$> kept emails), us.
  rewrite (new_events_app _ _ _ Htr).
  split; [|split; [|split; [|split]]].
  - rewrite Htr, !app_assoc.
    change [?a; ?b] with ([a] ++ [b]). rewrite app_assoc. apply last_snoc.
  - by rewrite !length_fmap.
  - by rewrite length_fmap.
  - apply sublist_filter.
  - intros i Hi. rewrite length_fmap in Hi.
    destruct (lookup_lt_is_Some_2 _ _ Hi) as [r Hr].
    exists r. split; [done|]. split.
    { apply list_elem_of_lookup_2 in Hr. unfold kept in Hr.
      by apply list_elem_of_filter in Hr as [_ ?]. }
    rewrite !list_lookup_fmap, Hr. split; [done|]. split; [done|].
    rewrite uuid_replies_app, uuid_replies_events. cbn. by rewrite app_nil_r.
Qed.

End StoredItems.

Lemma add_emails_builds_stored_items_witness :
  add_emails (Fake.respond Fake.reliable)
    [Fake.hello; Fake.untexted; Fake.bare] Fake.ready
  = (Ok true, (add_emails (Fake.respond Fake.reliable)
                 [Fake.hello; Fake.untexted; Fake.bare] Fake.ready).2)
  /\ exists ids,
       ids = uuid_replies
               (new_events Fake.ready
                  (add_emails (Fake.respond Fake.reliable)
                     [Fake.hello; Fake.untexted; Fake.bare] Fake.ready).2)
       /\ length ids = 1%nat.
Proof.
  assert (H : add_emails (Fake.respond Fake.reliable)
                [Fake.hello; Fake.untexted; Fake.bare] Fake.ready
              = (Ok true, (add_emails (Fake.respond Fake.reliable)
                             [Fake.hello; Fake.untexted; Fake.bare]
                             Fake.ready).2))
    by (vm_compute; reflexivity).
  split; [exact H|].
  destruct (add_emails_builds_stored_items (Fake.respond Fake.reliable)
              [Fake.hello; Fake.untexted; Fake.bare] Fake.ready _ H)
    as (c & embeddings & documents & metadatas & ids & _ & Hids & _).
  exists ids. split; [exact Hids|]. rewrite Hids. vm_compute. reflexivity.
Defined.

Lemma add_emails_lists_correspond_witness :
  add_emails (Fake.respond Fake.reliable)
    [Fake.untexted; Fake.hello; Fake.bare; Fake.hello] Fake.ready
  = (Ok true, (add_emails (Fake.respond Fake.reliable)
                 [Fake.untexted; Fake.hello; Fake.bare; Fake.hello]
                 Fake.ready).2)
  /\ exists c embeddings documents metadatas ids,
       last (trace (add_emails (Fake.respond Fake.reliable)
                      [Fake.untexted; Fake.hello; Fake.bare; Fake.hello]
                      Fake.ready).2)
       = Some (Ev (CollectionAdd c embeddings documents metadatas ids) (Ok tt))
       /\ length documents = length metadatas
       /\ length metadatas = length ids.
Proof.
  assert (H : add_emails (Fake.respond Fake.reliable)
                [Fake.untexted; Fake.hello; Fake.bare; Fake.hello] Fake.ready
              = (Ok true, (add_emails (Fake.respond Fake.reliable)
                             [Fake.untexted; Fake.hello; Fake.bare; Fake.hello]
                             Fake.ready).2))
    by (vm_compute; reflexivity).
  split; [exact H|].
  destruct (add_emails_lists_correspond (Fake.respond Fake.reliable)
              [Fake.untexted; Fake.hello; Fake.bare; Fake.hello] Fake.ready _ H)
    as (c & embeddings & documents & metadatas & ids & Hlast & Hl1 & Hl2 & _).
  exists c, embeddings, documents, metadatas, ids.
  exact (conj Hlast (conj Hl1 Hl2)).
Defined.

(** ** Clearing the collection and reading its size *)

Section Maintenance.

Context {W : Type} (respond : forall c : call, W -> result (reply c) * W).


(** With a collection set, [clear_collection] does return a boolean. *)
Lemma clear_collection_initialized_returns_bool (s : state W) c :
  collection (self s) = Some c ->
  exists (b : bool) s', clear_collection respond s = (Ok (PBool b), s').
Proof.
  intros Hc. unfold clear_collection. unfold_monad. cbn. rewrite Hc.
  destruct (client (self s)) as [cl|]; cbn; [|by eexists _, _].
  repeat answer_call respond; by eexists _, _.
Qed.

(** It returns [True] after deleting the collection and creating it anew
    under the same name and description. *)
Lemma clear_collection_success (s : state W) c cl w1 c' w2 :
  collection (self s) = Some c ->
  client (self s) = Some cl ->
  respond (DeleteCollection cl (collection_name (self s))) (world s)
  = (Ok tt, w1) ->
  respond (CreateCollection cl (collection_name (self s)) collection_metadata) w1
  = (Ok c', w2) ->
  clear_collection respond s
  = (Ok (PBool true),
     State (Manager (db_path (self s)) (collection_name (self s))
              (embedding_model (self s)) (Some cl) (Some c')) w2
       (trace s ++
        [ Ev (DeleteCollection cl (collection_name (self s))) (Ok tt);
          Ev (CreateCollection cl (collection_name (self s))
                collection_metadata) (Ok c') ])
       (stdout s)).
Proof.
  intros Hc Hcl Hdel Hnew. unfold clear_collection. unfold_monad. cbn.
  rewrite Hc, Hcl. cbn. rewrite Hdel. cbn. rewrite Hnew. cbn.
  by rewrite <- app_assoc, Hcl.
Qed.

(** C6: [get_collection_info] never raises.  Without a collection it
    returns the empty mapping and does nothing; when [count] answers it
    returns the mapping with exactly the keys [name], [count] and [path],
    holding the collection name, the count and the storage path; when
    [count] raises, the error is printed and the empty mapping returned. *)
Theorem get_collection_info_mapping (s : state W) :
  (exists info s', get_collection_info respond s = (Ok info, s'))
  /\ (collection (self s) = None ->
      get_collection_info respond s = (Ok ∅, s))
  /\ (forall c count w,
        collection (self s) = Some c ->
        respond (CollectionCount c) (world s) = (Ok count, w) ->
        exists info : gmap string pyval,
          get_collection_info respond s
          = (Ok info,
             State (self s) w
               (trace s ++ [Ev (CollectionCount c) (Ok count)]) (stdout s))
          /\ dom info = {[ "name"; "count"; "path" ]}
          /\ info !! "name" = Some (PStr (collection_name (self s)))
          /\ info !! "count" = Some (PInt count)
          /\ info !! "path" = Some (PStr (db_path (self s))))
  /\ (forall c e w,
        collection (self s) = Some c ->
        respond (CollectionCount c) (world s) = (Raise e, w) ->
        get_collection_info respond s
        = (Ok ∅,
           State (self s) w
             (trace s ++ [Ev (CollectionCount c) (Raise e)])
             (stdout s ++ [("Error getting collection info: " ++ e)%string]))).
Proof.
  unfold get_collection_info. unfold_monad. cbn.
  split; [|split; [|split]].
  - destruct (collection (self s)) as [c|]; cbn; [|by eexists _, _].
    answer_call respond; by eexists _, _.
  - by intros ->.
  - intros c count w -> ->. cbn. eexists. split; [reflexivity|].
    split; [|done]. rewrite !dom_insert_L, dom_singleton_L. set_solver.
  - by intros c e w -> ->.
Qed.

End Maintenance.

(** ** Searching *)

Lemma hits_of_projections docs : forall metas dists,
  length metas = length docs -> length dists = length docs ->
  document <$> hits_of docs metas dists = docs
  /\ metadata <$> hits_of docs metas dists = metas
  /\ distance <$> hits_of docs metas dists = dists.
Proof.
  induction docs as [|d docs IH]; intros [|m metas] [|x dists] Hm Hx;
    try discriminate; [done|].
  cbn in Hm, Hx. destruct (IH metas dists) as (H1 & H2 & H3); [lia..|].
  cbn. by rewrite H1, H2, H3.
Qed.

Section Search.

Context {W : Type} (respond : forall c : call, W -> result (reply c) * W).

(** The formatting loop on well-formed parallel lists. *)
Lemma format_results_seq results docs metas dists rest_d rest_m rest_x :
  qr_documents results = Some (docs :: rest_d) ->
  qr_metadatas results = Some (metas :: rest_m) ->
  qr_distances results = Some (dists :: rest_x) ->
  length metas = length docs -> length dists = length docs ->
  forall (n k : nat) (acc : list search_result) (s : state W),
    (k + n = length docs)%nat ->
    format_results results (seq k n) acc s
    = (Ok (acc ++ hits_of (drop k docs) (drop k metas) (drop k dists)), s).
Proof.
  intros Hd Hm Hx Hlm Hlx. induction n as [|n IH]; intros k acc s Hk.
  - cbn. unfold_monad. rewrite drop_ge by lia. cbn. by rewrite app_nil_r.
  - cbn [seq format_results]. rewrite Hd, Hm, Hx. unfold subscript.
    cbn [lookup list_lookup]. unfold_monad.
    destruct (lookup_lt_is_Some_2 docs k) as [d Hdk]; [lia|].
    destruct (lookup_lt_is_Some_2 metas k) as [m Hmk]; [lia|].
    destruct (lookup_lt_is_Some_2 dists k) as [x Hxk]; [lia|].
    cbn. rewrite Hdk, Hmk, Hxk. rewrite IH by lia.
    rewrite (drop_S _ _ _ Hdk), (drop_S _ _ _ Hmk), (drop_S _ _ _ Hxk).
    cbn. by rewrite <- app_assoc.
Qed.

(** C4: [search_emails] never raises.  Without a collection it returns
    the empty list and does nothing.  When [encode] raises, or when the
    collection's [query] raises, the exception is caught, its text
    printed, and the empty list returned. *)
Theorem search_emails_never_raises (query : string) (n : Z) (s : state W) :
  (exists hits s', search_emails respond query n s = (Ok hits, s'))
  /\ (collection (self s) = None ->
      search_emails respond query n s = (Ok [], s))
  /\ (forall c e w,
        collection (self s) = Some c ->
        respond (Encode (embedding_model (self s)) [PStr query]) (world s)
        = (Raise e, w) ->
        search_emails respond query n s
        = (Ok [],
           State (self s) w
             (trace s ++
              [Ev (Encode (embedding_model (self s)) [PStr query]) (Raise e)])
             (stdout s ++ [("Error searching emails: " ++ e)%string])))
  /\ (forall c q w e w',
        collection (self s) = Some c ->
        respond (Encode (embedding_model (self s)) [PStr query]) (world s)
        = (Ok q, w) ->
        respond (CollectionQuery c q n ["documents"; "metadatas"; "distances"]) w
        = (Raise e, w') ->
        search_emails respond query n s
        = (Ok [],
           State (self s) w'
             (trace s ++
              [ Ev (Encode (embedding_model (self s)) [PStr query]) (Ok q);
                Ev (CollectionQuery c q n
                      ["documents"; "metadatas"; "distances"]) (Raise e) ])
             (stdout s ++ [("Error searching emails: " ++ e)%string]))).
Proof.
  split; [|split; [|split]].
  - unfold search_emails, try_except.
    match goal with
    | |- context [ match ?body s with _ => _ end ] =>
        destruct (body s) as [[hits|e] s1]
    end.
    + by eexists _, _.
    + unfold_monad. by eexists _, _.
  - intros Hc. unfold search_emails. unfold_monad. cbn. by rewrite Hc.
  - intros c e w Hc He. unfold search_emails. unfold_monad. cbn.
    by rewrite Hc, He.
  - intros c q w e w' Hc Hq He. unfold search_emails. unfold_monad. cbn.
    rewrite Hc, Hq. cbn. rewrite He. cbn. by rewrite <- app_assoc.
Qed.

(** C5: a search that goes through.  The query text is embedded, the
    collection is asked once, with that embedding and [n_results] equal to
    the limit, and the hits returned are the store's documents, metadata
    and distances taken position by position: the order is the store's,
    so the distances ascend when the store's do.  Left out, the limit
    is 10. *)
Theorem search_emails_returns_store_order
    (query : string) (n : Z) (s : state W) c q w results w'
    docs metas dists rest_d rest_m rest_x :
  collection (self s) = Some c ->
  respond (Encode (embedding_model (self s)) [PStr query]) (world s)
  = (Ok q, w) ->
  respond (CollectionQuery c q n ["documents"; "metadatas"; "distances"]) w
  = (Ok results, w') ->
  qr_documents results = Some (docs :: rest_d) ->
  qr_metadatas results = Some (metas :: rest_m) ->
  qr_distances results = Some (dists :: rest_x) ->
  length metas = length docs -> length dists = length docs ->
  exists hits,
    search_emails respond query n s
    = (Ok hits,
       State (self s) w'
         (trace s ++
          [ Ev (Encode (embedding_model (self s)) [PStr query]) (Ok q);
            Ev (CollectionQuery c q n
                  ["documents"; "metadatas"; "distances"]) (Ok results) ])
         (stdout s))
    /\ hits = hits_of docs metas dists
    /\ document <$> hits = docs
    /\ metadata <$> hits = metas
    /\ distance <$> hits = dists
    /\ (ascending dists -> ascending (distance <$> hits))
    /\ search_emails_default respond query = search_emails respond query 10.
Proof.
  intros Hc Hq Hres Hd Hm Hx Hlm Hlx.
  destruct (hits_of_projections docs metas dists Hlm Hlx) as (H1 & H2 & H3).
  exists (hits_of docs metas dists).
  split; [|by rewrite H1, H2, H3].
  unfold search_emails. unfold_monad. cbn.
  rewrite Hc, Hq. cbn. rewrite Hres. cbn.
  unfold has_documents. rewrite Hd.
  destruct docs as [|d docs].
  - rewrite bool_decide_eq_false_2 by (intros Hne; by apply Hne).
    cbn. by rewrite <- app_assoc.
  - rewrite bool_decide_eq_true_2 by discriminate.
    unfold subscript at 1. cbn [lookup list_lookup].
    unfold_monad.
    rewrite (format_results_seq results (d :: docs) metas dists
               rest_d rest_m rest_x Hd Hm Hx Hlm Hlx) by (cbn; lia).
    rewrite !drop_0. cbn [app]. by rewrite <- app_assoc.
Qed.

End Search.

Lemma search_emails_never_raises_witness :
  search_emails (Fake.respond Fake.reliable) "hello" 5 Fake.blank
  = (Ok [], Fake.blank)
  /\ (search_emails (Fake.respond Fake.no_model) "hello" 5 Fake.stocked).1 = Ok []
  /\ (search_emails (Fake.respond Fake.no_query) "hello" 5 Fake.stocked).1 = Ok [].
Proof.
  split; [|split].
  - apply (search_emails_never_raises (Fake.respond Fake.reliable) "hello" 5
             Fake.blank). reflexivity.
  - destruct (search_emails_never_raises (Fake.respond Fake.no_model) "hello" 5
                Fake.stocked) as (_ & _ & H & _).
    rewrite (H (CollectionRef 0) "unavailable" (world Fake.stocked));
      reflexivity.
  - destruct (search_emails_never_raises (Fake.respond Fake.no_query) "hello" 5
                Fake.stocked) as (_ & _ & _ & H).
    rewrite (H (CollectionRef 0) [[0%float]] (world Fake.stocked)
               "unavailable" (world Fake.stocked));
      reflexivity.
Defined.

Lemma search_emails_returns_store_order_witness :
  exists hits,
    (search_emails (Fake.respond Fake.reliable) "hello world" 1 Fake.stocked).1
    = Ok hits
    /\ document <$> hits = [PStr "hello world"]
    /\ distance <$> hits = [0%float].
Proof.
  destruct (search_emails_returns_store_order (Fake.respond Fake.reliable)
              "hello world" 1 Fake.stocked (CollectionRef 0) [[0%float]]
              (world Fake.stocked)
              (Fake.answer [(PStr "hello world", metadata_of Fake.hello)] 1)
              (world Fake.stocked)
              [PStr "hello world"] [metadata_of Fake.hello] [0%float]
              [] [] [])
    as (hits & Hrun & _ & Hdocs & _ & Hdists & _);
    [vm_compute; reflexivity ..|].
  exists hits. rewrite Hrun. split; [reflexivity|]. split; assumption.
Defined.

Lemma get_collection_info_mapping_witness :
  get_collection_info (Fake.respond Fake.reliable) Fake.blank
  = (Ok ∅, Fake.blank)
  /\ (exists info,
        (get_collection_info (Fake.respond Fake.reliable) Fake.stocked).1
        = Ok info
        /\ info !! "count" = Some (PInt 1))
  /\ (get_collection_info (Fake.respond Fake.no_count) Fake.stocked).1 = Ok ∅.
Proof.
  split; [|split].
  - apply (get_collection_info_mapping (Fake.respond Fake.reliable) Fake.blank).
    reflexivity.
  - destruct (get_collection_info_mapping (Fake.respond Fake.reliable)
                Fake.stocked) as (_ & _ & H & _).
    destruct (H (CollectionRef 0) 1 (world Fake.stocked))
      as (info & Hrun & _ & _ & Hcount & _); [reflexivity..|].
    exists info. rewrite Hrun. split; [reflexivity | exact Hcount].
  - destruct (get_collection_info_mapping (Fake.respond Fake.no_count)
                Fake.stocked) as (_ & _ & _ & H).
    rewrite (H (CollectionRef 0) "unavailable" (world Fake.stocked));
      reflexivity.
Defined.

(** ** Deleting the database *)

Ltac sublist_by_scan :=
  repeat first [ apply sublist_nil | apply sublist_skip | apply sublist_cons ].

Section DeleteDatabase.

Context {W : Type} (respond : forall c : call, W -> result (reply c) * W).

(** Finish one leaf of the case analysis of [delete_database]. *)
Ltac close_leaf there :=
  repeat match goal with
         | u : reply (ClientReset _) |- _ => destruct u
         | u : reply (Rmtree _) |- _ => destruct u
         | u : reply (Makedirs _ _) |- _ => destruct u
         end;
  eexists _, _; split; [reflexivity|];
  erewrite new_events_app by (cbn; rewrite <- ?app_assoc; reflexivity);
  unfold reset_log, removal_log;
  match goal with H : client _ = _ |- _ => rewrite ?H end;
  split; [reflexivity|]; split; [cbn; sublist_by_scan|];
  first
    [ discriminate 1
    | intros _; exists there; eexists _, _, _;
      split; [cbn; rewrite ?app_nil_r; reflexivity|];
      split; [first [left; reflexivity | right; eexists; reflexivity]|];
      reflexivity ].

(** C7: [delete_database] never raises.  Its calls are, in this order and
    each at most once: the client's [reset], the existence test and
    [rmtree] of the storage directory, then the re-initialisation
    ([makedirs], opening the client, [get_collection] and, when that
    fails, [create_collection]).  It returns [False] exactly when one of
    them raised (the handled [get_collection] apart), and when it returns
    [True] all of them were made and answered, and the manager holds the
    new client and collection. *)
Theorem delete_database_resets_removes_reinitializes (s : state W) :
  exists (b : bool) (s' : state W),
    delete_database respond s = (Ok b, s')
    /\ b = negb (existsb failed (new_events s s'))
    /\ call_name <$> new_events s s'
       `sublist_of` [ "reset"; "exists"; "rmtree"; "makedirs";
                      "PersistentClient"; "get_collection";
                      "create_collection" ]
    /\ (b = true ->
        exists there cl c reopened,
          new_events s s'
          = reset_log (self s) ++ removal_log (db_path (self s)) there ++
            [ Ev (Makedirs (db_path (self s)) true) (Ok tt);
              Ev (PersistentClient (db_path (self s)) false true) (Ok cl) ] ++
            reopened
          /\ (reopened
              = [Ev (GetCollection cl (collection_name (self s))) (Ok c)]
              \/ exists e,
                   reopened
                   = [ Ev (GetCollection cl (collection_name (self s)))
                         (Raise e);
                       Ev (CreateCollection cl (collection_name (self s))
                             collection_metadata) (Ok c) ])
          /\ self s'
             = Manager (db_path (self s)) (collection_name (self s))
                 (embedding_model (self s)) (Some cl) (Some c)).
Proof.
  unfold delete_database, _initialize_db. unfold_monad. cbn.
  destruct (client (self s)) as [cl0|] eqn:Hcl; cbn.
  - answer_call respond; [|close_leaf true].
    answer_call respond; [|close_leaf true].
    match goal with b : reply (PathExists _) |- _ => destruct b end; cbn.
    + answer_call respond; [|close_leaf true].
      answer_call respond; [|close_leaf true].
      answer_call respond; [|close_leaf true].
      answer_call respond; [close_leaf true|].
      answer_call respond; close_leaf true.
    + answer_call respond; [|close_leaf false].
      answer_call respond; [|close_leaf false].
      answer_call respond; [close_leaf false|].
      answer_call respond; close_leaf false.
  - answer_call respond; [|close_leaf true].
    match goal with b : reply (PathExists _) |- _ => destruct b end; cbn.
    + answer_call respond; [|close_leaf true].
      answer_call respond; [|close_leaf true].
      answer_call respond; [|close_leaf true].
      answer_call respond; [close_leaf true|].
      answer_call respond; close_leaf true.
    + answer_call respond; [|close_leaf false].
      answer_call respond; [|close_leaf false].
      answer_call respond; [close_leaf false|].
      answer_call respond; close_leaf false.
Qed.

End DeleteDatabase.

Lemma delete_database_resets_removes_reinitializes_witness :
  exists s' cl c,
    delete_database (Fake.respond Fake.reliable) Fake.stocked = (Ok true, s')
    /\ self s'
       = Manager config.VECTOR_DB_PATH config.COLLECTION_NAME (ModelRef 0)
           (Some cl) (Some c)
    /\ (delete_database (Fake.respond Fake.no_rmtree) Fake.stocked).1 = Ok false.
Proof.
  destruct (delete_database_resets_removes_reinitializes
              (Fake.respond Fake.reliable) Fake.stocked)
    as (b & s' & Hrun & _ & _ & Hdone).
  assert (Hb : b = true).
  { assert (H1 : (delete_database (Fake.respond Fake.reliable) Fake.stocked).1
                 = Ok true) by (vm_compute; reflexivity).
    rewrite Hrun in H1. cbn in H1. congruence. }
  destruct (Hdone Hb) as (there & cl & c & reopened & _ & _ & Hself).
  exists s', cl, c. subst b. split; [exact Hrun|]. split; [exact Hself|].
  vm_compute. reflexivity.
Defined.

(** ** Configuration *)

(** No name of [config.py] holds the default limit of [search_emails]. *)
Lemma namespace_without_result_limit (getenv : string -> option string)
    (name : string) :
  (name, config.SInt n_results_default) ∉ config.namespace getenv.
Proof.
  intros Hin. unfold config.namespace in Hin.
  repeat (apply elem_of_cons in Hin as [Hin|Hin];
          [destruct (config.GROQ_API_KEY getenv); discriminate|]).
  by apply elem_of_nil in Hin.
Qed.

Section Configuration.

Context {W : Type} (respond : forall c : call, W -> result (reply c) * W).

(** C9, as the code has it: [config.py] defines the embedding model
    identifier, the storage path and the collection name, and the
    constructor takes the three from there: a manager it returns holds the
    configured path and name, and its first call loads the configured
    model.  The default result limit is not among the configuration's
    values: it is the literal 10 of the signature of [search_emails]. *)
Theorem configuration_has_three_settings
    (getenv : string -> option string) :
  ("EMBEDDING_MODEL", config.SStr config.EMBEDDING_MODEL)
    ∈ config.namespace getenv
  /\ ("VECTOR_DB_PATH", config.SStr config.VECTOR_DB_PATH)
       ∈ config.namespace getenv
  /\ ("COLLECTION_NAME", config.SStr config.COLLECTION_NAME)
       ∈ config.namespace getenv
  /\ (forall (s s' : state W),
        __init__ respond s = (Ok tt, s') ->
        db_path (self s') = config.VECTOR_DB_PATH
        /\ collection_name (self s') = config.COLLECTION_NAME
        /\ head (new_events s s')
           = Some (Ev (SentenceTransformer config.EMBEDDING_MODEL "cpu")
                     (Ok (embedding_model (self s')))))
  /\ n_results_default = 10
  /\ (forall query : string,
        search_emails_default respond query = search_emails respond query 10)
  /\ (forall name : string,
        (name, config.SInt n_results_default) ∉ config.namespace getenv).
Proof.
  split; [|split; [|split; [|split; [|split; [|split]]]]].
  - unfold config.namespace. set_solver.
  - unfold config.namespace. set_solver.
  - unfold config.namespace. set_solver.
  - intros s s'. unfold __init__, _initialize_db. unfold_monad. cbn.
    repeat (answer_call respond; try discriminate 1);
      intros Hrun; inversion Hrun; subst; cbn;
      (erewrite new_events_app by (cbn; rewrite <- ?app_assoc; reflexivity));
      done.
  - reflexivity.
  - reflexivity.
  - intros name. apply namespace_without_result_limit.
Qed.

End Configuration.

(** C9, as the spec has it, fails: whatever the environment, no name of
    [config.py] holds the default limit of [search_emails]. *)
Lemma configuration_has_no_result_limit :
  ~ exists (getenv : string -> option string) (name : string),
      (name, config.SInt n_results_default) ∈ config.namespace getenv.
Proof.
  intros (getenv & name & Hin).
  exact (namespace_without_result_limit getenv name Hin).
Qed.

Lemma configuration_has_three_settings_witness :
  db_path (self Fake.ready) = config.VECTOR_DB_PATH
  /\ collection_name (self Fake.ready) = config.COLLECTION_NAME.
Proof.
  assert (H : __init__ (Fake.respond Fake.reliable) Fake.blank
              = (Ok tt, Fake.ready)) by (vm_compute; reflexivity).
  destruct (configuration_has_three_settings (Fake.respond Fake.reliable)
              (fun _ => None)) as (_ & _ & _ & Hinit & _).
  destruct (Hinit Fake.blank Fake.ready H) as (Hpath & Hname & _).
  split; assumption.
Defined.

(** * Further properties of the methods *)

(** ** The runs of [add_emails] *)

Section AddRuns.

Context {W : Type} (respond : forall c : call, W -> result (reply c) * W).

(** The loop stops at the first [uuid4] call that raises: fewer identifiers
    than records kept were generated. *)
Lemma add_emails_loop_raise_inv (emails : list (gmap string pyval)) :
  forall documents metadatas ids (s : state W) e s',
    add_emails_loop respond emails documents metadatas ids s = (Raise e, s') ->
    exists us w,
      (length us < length (kept emails))%nat
      /\ s' = State (self s) w (trace s ++ uuid_events us ++ [Ev Uuid4 (Raise e)])
                (stdout s).
Proof.
  induction emails as [|r emails IH]; intros documents metadatas ids s e s' Hrun.
  - cbn in Hrun. unfold_monad. discriminate.
  - cbn [add_emails_loop] in Hrun. unfold kept. rewrite filter_cons.
    fold (kept emails).
    destruct (truthy (text_content r)) eqn:Hr; cbn [negb] in Hrun.
    + rewrite decide_True by reflexivity. unfold_monad.
      destruct (respond Uuid4 (world s)) as [[u|e0] w] eqn:E.
      * apply IH in Hrun as (us & w' & Hlen & ->). cbn.
        exists (u :: us), w'. split; [cbn; lia|].
        cbn. by rewrite <- !app_assoc.
      * inversion Hrun; subst. exists [], w. split; [cbn; lia | done].
    + rewrite decide_False by discriminate. exact (IH _ _ _ _ _ _ Hrun).
Qed.

(** The loop that goes through leaves a state that differs from the one it
    started in by the world and the log. *)
Lemma add_emails_loop_ok_inv (emails : list (gmap string pyval)) :
  forall documents metadatas ids (s : state W) documents' metadatas' ids' s',
    add_emails_loop respond emails documents metadatas ids s
    = (Ok (documents', metadatas', ids'), s') ->
    exists us w,
      length us = length (kept emails)
      /\ documents' = documents ++ (text_content <$> kept emails)
      /\ metadatas' = metadatas ++ (metadata_of <$> kept emails)
      /\ ids' = ids ++ us
      /\ s' = State (self s) w (trace s ++ uuid_events us) (stdout s).
Proof.
  induction emails as [|r emails IH];
    intros documents metadatas ids s documents' metadatas' ids' s' Hrun.
  - cbn in Hrun. unfold_monad. inversion Hrun; subst.
    exists [], (world s'). cbn. rewrite !app_nil_r. by destruct s'.
  - cbn [add_emails_loop] in Hrun. unfold kept. rewrite filter_cons.
    fold (kept emails).
    destruct (truthy (text_content r)) eqn:Hr; cbn [negb] in Hrun.
    + rewrite decide_True by reflexivity. unfold_monad.
      destruct (respond Uuid4 (world s)) as [[u|e0] w] eqn:E; [|discriminate].
      apply IH in Hrun as (us & w' & Hlen & -> & -> & -> & ->). cbn.
      exists (u :: us), w'. cbn. rewrite Hlen, <- !app_assoc. done.
    + rewrite decide_False by discriminate. exact (IH _ _ _ _ _ _ _ _ Hrun).
Qed.

(** Every run of [add_emails]: nothing to add, or some [uuid4] calls
    followed by one of the five endings of [add_tail]. *)
Lemma add_emails_run (emails : list (gmap string pyval)) (s : state W) :
  (kept emails = [] /\ add_emails respond emails s = (Ok false, s))
  \/ (kept emails <> []
      /\ exists us tail (b : bool) w out,
           add_emails respond emails s
           = (Ok b,
              State (self s) w (trace s ++ uuid_events us ++ tail)
                (stdout s ++ [out]))
           /\ add_tail (self s) (kept emails) us tail b out).
Proof.
  destruct (kept emails) as [|r0 batch0] eqn:Hk.
  { left. split; [done|]. by rewrite add_emails_kept, Hk. }
  right. split; [done|]. rewrite <- Hk.
  assert (Hne : text_content <$> kept emails <> [])
    by (rewrite Hk; discriminate).
  clear Hk r0 batch0.
  destruct emails as [|r rest]; [done|].
  unfold add_emails, try_except. cbv beta iota.
  remember (r :: rest) as batch eqn:Hbatch.
  unfold mbind at 1. unfold M_bind at 1.
  destruct (add_emails_loop respond batch [] [] [] s)
    as [[[[documents metadatas] ids]|e] s1] eqn:Hloop.
  - apply add_emails_loop_ok_inv in Hloop as (us & w1 & Hlen & -> & -> & -> & ->).
    cbn [app] in *. remember (kept batch) as keep eqn:Hkeep.
    destruct (text_content <$> keep) as [|d ds] eqn:Hd; [done|].
    rewrite <- Hd. clear Hd d ds Hne.
    unfold_monad. cbn. answer_call respond.
    + destruct (collection (self s)) as [c|] eqn:Hc; cbn.
      * answer_call respond.
        -- match goal with
           | u : reply (CollectionAdd _ _ _ _ _) |- _ => destruct u
           end.
           eexists us, _, true, _, _. rewrite <- !app_assoc, length_fmap.
           split; [reflexivity|]. by apply tail_added.
        -- eexists us, _, false, _, _. rewrite <- !app_assoc.
           split; [reflexivity|]. by apply tail_add_raised.
      * eexists us, _, false, _, _. rewrite <- !app_assoc.
        split; [reflexivity|]. by apply tail_no_collection.
    + eexists us, _, false, _, _. rewrite <- !app_assoc.
      split; [reflexivity|]. by apply tail_encode_raised.
  - apply add_emails_loop_raise_inv in Hloop as (us & w1 & Hlen & ->).
    unfold_monad. cbn.
    eexists us, _, false, _, _. split; [reflexivity|].
    by apply tail_uuid4_raised.
Qed.

End AddRuns.

Section AddOutcomes.

Context {W : Type} (respond : forall c : call, W -> result (reply c) * W).

(** X1: no exception leaves [add_emails], whatever the store, the model or
    the generator do, and the call writes no attribute of the manager. *)
Theorem add_emails_never_raises
    (emails : list (gmap string pyval)) (s : state W) :
  exists (b : bool) (s' : state W),
    add_emails respond emails s = (Ok b, s') /\ self s' = self s.
Proof.
  destruct (add_emails_run respond emails s)
    as [[_ Hrun] | (_ & us & tail & b & w & out & Hrun & _)];
    rewrite Hrun; by eexists _, _.
Qed.

(** X2: [add_emails] calls [collection.add] once at most, as its last call,
    after all the identifiers and the embeddings were obtained; and it
    returns [True] exactly when that call was made and went through. *)
Theorem add_emails_inserts_once_at_the_end
    (emails : list (gmap string pyval)) (s : state W) :
  let log := new_events s (add_emails respond emails s).2 in
  (forall (i : nat) (ev : event),
     log !! i = Some ev -> call_name ev = "add" ->
     S i = length log
     /\ length (uuid_replies log) = length (kept emails)
     /\ exists embeddings,
          log !! (i - 1)%nat
          = Some (Ev (Encode (embedding_model (self s))
                        (text_content <$> kept emails)) (Ok embeddings)))
  /\ ((add_emails respond emails s).1 = Ok true <->
      exists ev, last log = Some ev /\ call_name ev = "add" /\ failed ev = false).
Proof.
  cbn zeta.
  destruct (add_emails_run respond emails s)
    as [[_ Hrun] | (_ & us & tail & b & w & out & Hrun & Htail)];
    rewrite Hrun; cbn [fst snd].
  { rewrite new_events_same. split.
    - intros i ev Hi. by rewrite lookup_nil in Hi.
    - split; [discriminate | intros (ev & Hl & _); discriminate]. }
  erewrite new_events_app by reflexivity.
  assert (Hnames : forall i ev,
            uuid_events us !! i = Some ev -> call_name ev <> "add").
  { intros i ev Hi. unfold uuid_events in Hi.
    rewrite list_lookup_fmap in Hi.
    destruct (us !! i); inversion Hi; subst. discriminate. }
  assert (Hlu : length (uuid_events us) = length us)
    by (unfold uuid_events; apply length_fmap).
  split.
  - intros i ev Hi Hadd.
    destruct (decide (i < length (uuid_events us))%nat) as [Hlt|Hge].
    { rewrite lookup_app_l in Hi by done. by destruct (Hnames i ev Hi). }
    rewrite lookup_app_r in Hi by lia.
    rewrite uuid_replies_app, uuid_replies_events, !length_app.
    remember (i - length (uuid_events us))%nat as k eqn:Hk.
    destruct Htail as [e Hlen|e Hlen|embeddings Hlen Hc|c embeddings e Hlen Hc
                      |c embeddings Hlen Hc];
      destruct k as [|[|k]]; inversion Hi; subst ev; try discriminate Hadd.
    all: split; [cbn; lia|]; split; [unfold uuid_replies; cbn; lia|].
    all: exists embeddings; rewrite lookup_app_r by lia.
    all: by replace (i - 1 - length (uuid_events us))%nat with 0%nat by lia.
  - assert (Hlast1 : forall ev, last (uuid_events us ++ [ev]) = Some ev)
      by (intros ev; apply last_snoc).
    assert (Hlast2 : forall ev0 ev, last (uuid_events us ++ [ev0; ev]) = Some ev).
    { intros ev0 ev. change [ev0; ev] with ([ev0] ++ [ev]).
      rewrite app_assoc. apply last_snoc. }
    destruct Htail; rewrite ?Hlast1, ?Hlast2.
    1-4: split; [discriminate|];
         intros (ev & Hl & Hn & Hf); inversion Hl; subst; discriminate.
    split; [|done]. intros _. eexists. split; [reflexivity|]. done.
Qed.


(** X4: on a manager without a collection [add_emails] returns [False] and
    never calls [collection.add]. *)
Theorem add_emails_without_collection
    (emails : list (gmap string pyval)) (s : state W) :
  collection (self s) = None ->
  (add_emails respond emails s).1 = Ok false
  /\ Forall (fun ev => call_name ev <> "add")
       (new_events s (add_emails respond emails s).2).
Proof.
  intros Hc.
  destruct (add_emails_run respond emails s)
    as [[Hk Hrun] | (Hk & us & tail & b & w & out & Hrun & Htail)];
    rewrite Hrun; cbn [fst snd].
  { split; [done|]. by rewrite new_events_same. }
  erewrite new_events_app by reflexivity.
  assert (Hus : Forall (fun ev => call_name ev <> "add") (uuid_events us)).
  { unfold uuid_events. apply Forall_fmap, Forall_true. intros u. discriminate. }
  destruct Htail; try congruence;
    (split; [done|]); (apply Forall_app; split; [done|]);
    repeat constructor; discriminate.
Qed.

(** X5: a record whose text is present but is [None], [False], [0] or the
    empty string is skipped: the run on a batch that holds it is the run on
    the batch without it. *)
Theorem add_emails_skips_false_text
    (before : list (gmap string pyval)) (r : gmap string pyval)
    (after : list (gmap string pyval)) (v : pyval) (s : state W) :
  r !! "text_content" = Some v ->
  v ∈ [PNone; PBool false; PInt 0; PStr ""] ->
  add_emails respond (before ++ r :: after) s
  = add_emails respond (before ++ after) s.
Proof.
  intros Hr Hv.
  assert (Ht : truthy (text_content r) = false).
  { unfold text_content. rewrite Hr. cbn.
    repeat (apply elem_of_cons in Hv as [->|Hv]; [reflexivity|]).
    by apply elem_of_nil in Hv. }
  rewrite add_emails_kept, (add_emails_kept _ (before ++ after)).
  by rewrite kept_skip.
Qed.

End AddOutcomes.

Lemma add_emails_inserts_once_at_the_end_witness :
  exists ev,
    last (new_events Fake.ready
            (add_emails (Fake.respond Fake.reliable)
               [Fake.hello; Fake.untexted; Fake.bare] Fake.ready).2)
    = Some ev
    /\ call_name ev = "add".
Proof.
  destruct (proj1 (proj2 (add_emails_inserts_once_at_the_end
                            (Fake.respond Fake.reliable)
                            [Fake.hello; Fake.untexted; Fake.bare] Fake.ready)))
    as (ev & Hlast & Hname & _); [vm_compute; reflexivity|].
  exists ev. split; assumption.
Defined.


Lemma add_emails_without_collection_witness :
  collection (self Fake.blank) = None
  /\ (add_emails (Fake.respond Fake.reliable) [Fake.hello] Fake.blank).1
     = Ok false.
Proof.
  assert (H : collection (self Fake.blank) = None) by reflexivity.
  split; [exact H|].
  exact (proj1 (add_emails_without_collection (Fake.respond Fake.reliable)
                  [Fake.hello] Fake.blank H)).
Defined.

Lemma add_emails_skips_false_text_witness :
  add_emails (Fake.respond Fake.reliable)
    ([Fake.hello] ++ Fake.nulled :: [Fake.zeroed]) Fake.ready
  = add_emails (Fake.respond Fake.reliable)
      ([Fake.hello] ++ [Fake.zeroed]) Fake.ready.
Proof.
  apply (add_emails_skips_false_text (Fake.respond Fake.reliable)
           [Fake.hello] Fake.nulled [Fake.zeroed] PNone Fake.ready).
  - reflexivity.
  - apply list_elem_of_here.
Defined.

(** ** The runs of [search_emails] and [get_collection_info] *)

Section SearchRuns.

Context {W : Type} (respond : forall c : call, W -> result (reply c) * W).

(** The formatting loop touches nothing, and the hits it adds are taken
    from the answer at the indices given, in their order. *)
Lemma format_results_inv (results : query_result) (indices : list nat) :
  forall (acc : list search_result) (s : state W) r s',
    format_results results indices acc s = (r, s') ->
    s' = s
    /\ forall hits, r = Ok hits ->
         exists new, hits = acc ++ new /\ Forall2 (hit_at results) indices new.
Proof.
  induction indices as [|i indices IH]; intros acc s r s' Hrun.
  - cbn in Hrun. unfold_monad. inversion Hrun; subst. split; [done|].
    intros hits [= <-]. exists []. by rewrite app_nil_r.
  - cbn [format_results] in Hrun. unfold subscript in Hrun. unfold_monad.
    destruct (qr_documents results) as [[|d0 rd]|] eqn:Hd; cbn in Hrun;
      try (inversion Hrun; subst; split; [done | discriminate]).
    destruct (d0 !! i) as [d|] eqn:Hdi; cbn in Hrun;
      try (inversion Hrun; subst; split; [done | discriminate]).
    destruct (qr_metadatas results) as [[|m0 rm]|] eqn:Hm; cbn in Hrun;
      try (inversion Hrun; subst; split; [done | discriminate]).
    destruct (m0 !! i) as [m|] eqn:Hmi; cbn in Hrun;
      try (inversion Hrun; subst; split; [done | discriminate]).
    destruct (qr_distances results) as [[|x0 rx]|] eqn:Hx; cbn in Hrun;
      try (inversion Hrun; subst; split; [done | discriminate]).
    destruct (x0 !! i) as [x|] eqn:Hxi; cbn in Hrun;
      try (inversion Hrun; subst; split; [done | discriminate]).
    apply IH in Hrun as [-> Hhits]. split; [done|].
    intros hits Hr. destruct (Hhits hits Hr) as (new & -> & Hnew).
    exists (SearchResult d m x :: new). rewrite <- app_assoc. split; [done|].
    constructor; [|done]. unfold hit_at. by rewrite Hd, Hm, Hx.
Qed.

(** The condition of [search_emails] on the answer: is there a first list
    of documents, and is it non-empty. *)
Lemma has_documents_first_list (results : query_result) :
  has_documents results = true <-> first_list (qr_documents results) <> [].
Proof.
  unfold has_documents, first_list.
  destruct (qr_documents results) as [[|d0 rd]|]; [done| |done].
  by rewrite bool_decide_eq_true.
Qed.

(** Every run of [search_emails]. *)
Lemma search_emails_run (query : string) (n : Z) (s : state W) :
  (collection (self s) = None
   /\ search_emails respond query n s = (Ok [], s))
  \/ exists c hits w log out,
       collection (self s) = Some c
       /\ search_emails respond query n s
          = (Ok hits, State (self s) w (trace s ++ log) (stdout s ++ out))
       /\ search_tail (self s) c query n log hits out.
Proof.
  unfold search_emails. unfold_monad. cbn.
  destruct (collection (self s)) as [c|] eqn:Hc; cbn; [right|by left].
  exists c. answer_call respond.
  2:{ eexists [], _, [_], [_]. split; [done|]. split; [reflexivity|].
      constructor. }
  answer_call respond.
  2:{ eexists [], _, [_; _], [_]. split; [done|]. rewrite <- app_assoc.
      split; [reflexivity|]. constructor. }
  match goal with
  | |- context [ has_documents ?r ] =>
      destruct (has_documents r) eqn:Hdocs
  end.
  - pose proof (proj1 (has_documents_first_list _) Hdocs) as Hne.
    unfold subscript at 1.
    match type of Hne with
    | first_list (qr_documents ?r) <> [] =>
        destruct (qr_documents r) as [[|d0 rd]|] eqn:Hd; try done
    end.
    cbn [lookup list_lookup]. unfold mret, M_ret. cbn.
    match goal with
    | |- context [ format_results ?r ?idx ?acc ?s0 ] =>
        destruct (format_results r idx acc s0) as [[hits|e] s1] eqn:Hf;
        apply format_results_inv in Hf as [-> Hhits]
    end.
    + destruct (Hhits hits eq_refl) as (new & -> & Hnew). cbn.
      eexists new, _, [_; _], []. split; [done|].
      rewrite <- app_assoc, (app_nil_r (stdout s)).
      split; [reflexivity|]. constructor. by rewrite Hd.
    + cbn. eexists [], _, [_; _], [_]. split; [done|]. rewrite <- app_assoc.
      split; [reflexivity|]. constructor. rewrite Hd. by cbn.
  - cbn. eexists [], _, [_; _], []. split; [done|].
    rewrite <- app_assoc, (app_nil_r (stdout s)).
    split; [reflexivity|]. constructor.
    assert (H0 : first_list (qr_documents a0) = []).
    { destruct (decide (first_list (qr_documents a0) = [])) as [|Hne]; [done|].
      apply has_documents_first_list in Hne. congruence. }
    rewrite H0. constructor.
Qed.

(** An answer in the log of a run is the answer the run formatted. *)
Lemma search_tail_answer me c query n log hits out ev results :
  search_tail me c query n log hits out ->
  ev ∈ log -> answer_of ev = Some results ->
  (first_list (qr_documents results) <> [] /\ hits = [] /\ exists e,
     out = [("Error searching emails: " ++ e)%string])
  \/ (out = []
      /\ Forall2 (hit_at results)
           (seq 0 (length (first_list (qr_documents results)))) hits).
Proof.
  intros Htail Hev Hans.
  destruct Htail as [e|q e|q results0 e Hne|q results0 hits Hhits];
    repeat (apply elem_of_cons in Hev as [->|Hev]; [try discriminate Hans|]);
    try (by apply elem_of_nil in Hev).
  - cbn in Hans. injection Hans as <-. left. by eauto.
  - cbn in Hans. injection Hans as <-. by right.
Qed.

End SearchRuns.

Section SearchOutcomes.

Context {W : Type} (respond : forall c : call, W -> result (reply c) * W).

(** X6: [search_emails] never returns part of an answer.  When the store
    answered, the hits are either none, or one for each document of the
    answer, each made of the document, the metadata and the distance at its
    own position, in the store's order - also when the metadata or distance
    lists are longer than the document list. *)
Theorem search_emails_all_or_nothing
    (query : string) (n : Z) (s : state W) (ev : event)
    (results : query_result) :
  ev ∈ new_events s (search_emails respond query n s).2 ->
  answer_of ev = Some results ->
  exists hits,
    (search_emails respond query n s).1 = Ok hits
    /\ (hits = []
        \/ (length hits = length (first_list (qr_documents results))
            /\ forall (j : nat) (h : search_result),
                 hits !! j = Some h -> hit_at results j h)).
Proof.
  intros Hev Hans.
  destruct (search_emails_run respond query n s)
    as [[_ Hrun] | (c & hits & w & log & out & _ & Hrun & Htail)];
    rewrite Hrun in *; cbn [fst snd] in *.
  { rewrite new_events_same in Hev. by apply elem_of_nil in Hev. }
  erewrite new_events_app in Hev by reflexivity.
  exists hits. split; [done|].
  destruct (search_tail_answer _ _ _ _ _ _ _ _ _ Htail Hev Hans)
    as [(_ & -> & _) | (_ & Hhits)]; [by left|right].
  split.
  - apply Forall2_length in Hhits. by rewrite length_seq in Hhits.
  - intros j h Hj.
    destruct (Forall2_lookup_r _ _ _ _ _ Hhits Hj) as (i & Hi & Hat).
    apply lookup_seq in Hi as [-> _]. done.
Qed.

(** X7: an answer without documents - the key holds [None], an empty list,
    or a first list that is empty - gives no hits and prints nothing,
    whatever the other keys hold. *)
Theorem search_emails_empty_answer
    (query : string) (n : Z) (s : state W) (ev : event)
    (results : query_result) :
  ev ∈ new_events s (search_emails respond query n s).2 ->
  answer_of ev = Some results ->
  (qr_documents results = None
   \/ qr_documents results = Some []
   \/ exists rest, qr_documents results = Some ([] :: rest)) ->
  (search_emails respond query n s).1 = Ok []
  /\ stdout (search_emails respond query n s).2 = stdout s.
Proof.
  intros Hev Hans Hdocs.
  assert (Hnil : first_list (qr_documents results) = [])
    by (destruct Hdocs as [-> | [-> | [rest ->]]]; reflexivity).
  destruct (search_emails_run respond query n s)
    as [[_ Hrun] | (c & hits & w & log & out & _ & Hrun & Htail)];
    rewrite Hrun in *; cbn [fst snd] in *; [done|].
  erewrite new_events_app in Hev by reflexivity.
  destruct (search_tail_answer _ _ _ _ _ _ _ _ _ Htail Hev Hans)
    as [(Hne & _) | (-> & Hhits)]; [done|].
  rewrite Hnil in Hhits. cbn in Hhits. apply Forall2_nil_inv_l in Hhits as ->.
  by rewrite app_nil_r.
Qed.

(** X8: an answer with documents whose metadata list or distance list is
    missing or shorter than the document list gives no hits at all, and
    the failure is printed. *)
Theorem search_emails_malformed_answer
    (query : string) (n : Z) (s : state W) (ev : event)
    (results : query_result) :
  ev ∈ new_events s (search_emails respond query n s).2 ->
  answer_of ev = Some results ->
  (length (first_list (qr_metadatas results))
   < length (first_list (qr_documents results))
   \/ length (first_list (qr_distances results))
      < length (first_list (qr_documents results)))%nat ->
  (search_emails respond query n s).1 = Ok []
  /\ exists e : exn,
       stdout (search_emails respond query n s).2
       = stdout s ++ [("Error searching emails: " ++ e)%string].
Proof.
  intros Hev Hans Hshort.
  destruct (search_emails_run respond query n s)
    as [[_ Hrun] | (c & hits & w & log & out & _ & Hrun & Htail)];
    rewrite Hrun in *; cbn [fst snd] in *.
  { rewrite new_events_same in Hev. by apply elem_of_nil in Hev. }
  erewrite new_events_app in Hev by reflexivity.
  destruct (search_tail_answer _ _ _ _ _ _ _ _ _ Htail Hev Hans)
    as [(_ & -> & e & ->) | (_ & Hhits)]; [by eauto|].
  exfalso.
  set (docs := first_list (qr_documents results)) in *.
  assert (Hall : forall j, (j < length docs)%nat ->
            is_Some (first_list (qr_metadatas results) !! j)
            /\ is_Some (first_list (qr_distances results) !! j)).
  { intros j Hj.
    destruct (Forall2_lookup_l _ _ _ j j Hhits) as (h & _ & _ & Hm & Hx).
    { apply lookup_seq. lia. }
    by rewrite Hm, Hx. }
  destruct Hshort as [Hm|Hx].
  - destruct (Hall _ Hm) as [[m Hl] _].
    apply lookup_lt_Some in Hl. lia.
  - destruct (Hall _ Hx) as [_ [x Hl]].
    apply lookup_lt_Some in Hl. lia.
Qed.

(** X9: [search_emails] reads and does not write: it leaves the manager's
    attributes alone, and the calls it makes are at most one [encode]
    followed by one [query], the query on the manager's own collection and
    with the limit it was given. *)
Theorem search_emails_read_only (query : string) (n : Z) (s : state W) :
  let s' := (search_emails respond query n s).2 in
  self s' = self s
  /\ call_name <$> new_events s s' `sublist_of` ["encode"; "query"]
  /\ forall c' q n' include r,
       Ev (CollectionQuery c' q n' include) r ∈ new_events s s' ->
       collection (self s) = Some c' /\ n' = n.
Proof.
  cbn zeta.
  destruct (search_emails_run respond query n s)
    as [[_ Hrun] | (c & hits & w & log & out & Hc & Hrun & Htail)];
    rewrite Hrun; cbn [fst snd].
  { rewrite new_events_same. split; [done|]. split; [cbn; sublist_by_scan|].
    intros c' q n' include r Hin. by apply elem_of_nil in Hin. }
  erewrite new_events_app by reflexivity. split; [done|].
  split.
  - destruct Htail; cbn; sublist_by_scan.
  - intros c' q n' include r Hin.
    assert (Hcall : forall ev, ev ∈ log ->
              match ev with
              | Ev (CollectionQuery c0 _ n0 _) _ => c0 = c /\ n0 = n
              | _ => True
              end).
    { intros ev Hev.
      destruct Htail;
        repeat (apply elem_of_cons in Hev as [->|Hev]; [done|]);
        by apply elem_of_nil in Hev. }
    destruct (Hcall _ Hin) as [-> ->]. done.
Qed.

End SearchOutcomes.

Lemma search_emails_all_or_nothing_witness :
  exists hits,
    (search_emails (Fake.respond Fake.reliable) "hello world" 1 Fake.stocked).1
    = Ok hits
    /\ (hits = []
        \/ (length hits = 1%nat
            /\ forall (j : nat) (h : search_result),
                 hits !! j = Some h ->
                 hit_at (Fake.answer
                           [(PStr "hello world", metadata_of Fake.hello)] 1)
                   j h)).
Proof.
  assert (Hev : Ev (CollectionQuery (CollectionRef 0) [[0%float]] 1
                      ["documents"; "metadatas"; "distances"])
                  (Ok (Fake.answer
                         [(PStr "hello world", metadata_of Fake.hello)] 1))
                ∈ new_events Fake.stocked
                    (search_emails (Fake.respond Fake.reliable) "hello world" 1
                       Fake.stocked).2)
    by apply list_elem_of_further, list_elem_of_here.
  exact (search_emails_all_or_nothing (Fake.respond Fake.reliable)
           "hello world" 1 Fake.stocked _
           (Fake.answer [(PStr "hello world", metadata_of Fake.hello)] 1)
           Hev eq_refl).
Defined.

Lemma search_emails_empty_answer_witness :
  (search_emails (Fake.respond Fake.reliable) "hello world" 3 Fake.ready).1
  = Ok []
  /\ stdout (search_emails (Fake.respond Fake.reliable) "hello world" 3
               Fake.ready).2
     = stdout Fake.ready.
Proof.
  apply (search_emails_empty_answer (Fake.respond Fake.reliable)
           "hello world" 3 Fake.ready
           (Ev (CollectionQuery (CollectionRef 0) [[0%float]] 3
                  ["documents"; "metadatas"; "distances"])
              (Ok (Fake.answer [] 3)))
           (Fake.answer [] 3)).
  - apply list_elem_of_further, list_elem_of_here.
  - reflexivity.
  - right. right. exists []. reflexivity.
Defined.

Lemma search_emails_malformed_answer_witness :
  (search_emails Fake.forgetful "hello world" 1 Fake.stocked).1 = Ok []
  /\ exists e : exn,
       stdout (search_emails Fake.forgetful "hello world" 1 Fake.stocked).2
       = stdout Fake.stocked ++ [("Error searching emails: " ++ e)%string].
Proof.
  apply (search_emails_malformed_answer Fake.forgetful
           "hello world" 1 Fake.stocked
           (Ev (CollectionQuery (CollectionRef 0) [[0%float]] 1
                  ["documents"; "metadatas"; "distances"])
              (Ok (QueryResult (Some [[PStr "hello world"]]) None
                     (Some [[0%float]]))))
           (QueryResult (Some [[PStr "hello world"]]) None (Some [[0%float]]))).
  - apply list_elem_of_further, list_elem_of_here.
  - reflexivity.
  - left. cbn. lia.
Defined.

Lemma search_emails_read_only_witness :
  collection (self Fake.stocked) = Some (CollectionRef 0) /\ 1 = 1.
Proof.
  apply (proj2 (proj2 (search_emails_read_only (Fake.respond Fake.reliable)
                         "hello world" 1 Fake.stocked))
           (CollectionRef 0) [[0%float]] 1
           ["documents"; "metadatas"; "distances"]
           (Ok (Fake.answer
                  [(PStr "hello world", metadata_of Fake.hello)] 1))).
  apply list_elem_of_further, list_elem_of_here.
Defined.

Section InfoOutcomes.

Context {W : Type} (respond : forall c : call, W -> result (reply c) * W).

(** Every run of [get_collection_info]. *)
Lemma get_collection_info_run (s : state W) :
  (collection (self s) = None
   /\ get_collection_info respond s = (Ok ∅, s))
  \/ exists c r info w out,
       collection (self s) = Some c
       /\ get_collection_info respond s
          = (Ok info,
             State (self s) w (trace s ++ [Ev (CollectionCount c) r])
               (stdout s ++ out)).
Proof.
  unfold get_collection_info. unfold_monad. cbn.
  destruct (collection (self s)) as [c|] eqn:Hc; cbn; [right|by left].
  exists c. answer_call respond.
  - eexists _, _, _, []. split; [done|]. by rewrite app_nil_r.
  - eexists _, _, _, [_]. split; [done|]. reflexivity.
Qed.

(** X10: [get_collection_info] reads and does not write: it leaves the
    manager's attributes alone and makes one [count] call at most, on the
    manager's own collection. *)
Theorem get_collection_info_read_only (s : state W) :
  let s' := (get_collection_info respond s).2 in
  self s' = self s
  /\ call_name <$> new_events s s' `sublist_of` ["count"]
  /\ forall c' r,
       Ev (CollectionCount c') r ∈ new_events s s' ->
       collection (self s) = Some c'.
Proof.
  cbn zeta.
  destruct (get_collection_info_run s)
    as [[_ Hrun] | (c & r & info & w & out & Hc & Hrun)];
    rewrite Hrun; cbn [fst snd].
  { rewrite new_events_same. split; [done|]. split; [cbn; sublist_by_scan|].
    intros c' r Hin. by apply elem_of_nil in Hin. }
  erewrite new_events_app by reflexivity. split; [done|].
  split; [cbn; sublist_by_scan|].
  intros c' r' Hin. apply list_elem_of_singleton in Hin.
  apply (f_equal (fun ev => match ev with
                           | Ev (CollectionCount c0) _ => Some c0
                           | _ => None
                           end)) in Hin.
  cbn in Hin. by injection Hin as ->.
Qed.

End InfoOutcomes.

(** ** Opening the store *)

Section Initialization.

Context {W : Type} (respond : forall c : call, W -> result (reply c) * W).

(** Every run of [_initialize_db]: the five ways it can go. *)
Lemma initialize_db_run (s : state W) :
  let path := db_path (self s) in
  let name := collection_name (self s) in
  let model := embedding_model (self s) in
  (exists e w,
     _initialize_db respond s
     = (Raise ("Failed to initialize vector database: " ++ e)%string,
        State (self s) w (trace s ++ [Ev (Makedirs path true) (Raise e)])
          (stdout s)))
  \/ (exists e w,
        _initialize_db respond s
        = (Raise ("Failed to initialize vector database: " ++ e)%string,
           State (self s) w
             (trace s ++
              [ Ev (Makedirs path true) (Ok tt);
                Ev (PersistentClient path false true) (Raise e) ])
             (stdout s)))
  \/ (exists cl c w,
        _initialize_db respond s
        = (Ok tt,
           State (Manager path name model (Some cl) (Some c)) w
             (trace s ++
              [ Ev (Makedirs path true) (Ok tt);
                Ev (PersistentClient path false true) (Ok cl);
                Ev (GetCollection cl name) (Ok c) ])
             (stdout s ++ [("Loaded existing collection: " ++ name)%string])))
  \/ (exists cl e c w,
        _initialize_db respond s
        = (Ok tt,
           State (Manager path name model (Some cl) (Some c)) w
             (trace s ++
              [ Ev (Makedirs path true) (Ok tt);
                Ev (PersistentClient path false true) (Ok cl);
                Ev (GetCollection cl name) (Raise e);
                Ev (CreateCollection cl name collection_metadata) (Ok c) ])
             (stdout s ++ [("Created new collection: " ++ name)%string])))
  \/ (exists cl e e' w,
        _initialize_db respond s
        = (Raise ("Failed to initialize vector database: " ++ e')%string,
           State (Manager path name model (Some cl) (collection (self s))) w
             (trace s ++
              [ Ev (Makedirs path true) (Ok tt);
                Ev (PersistentClient path false true) (Ok cl);
                Ev (GetCollection cl name) (Raise e);
                Ev (CreateCollection cl name collection_metadata) (Raise e') ])
             (stdout s))).
Proof.
  cbn zeta. unfold _initialize_db. unfold_monad. cbn.
  answer_call respond; [|left; by eexists _, _].
  match goal with u : reply (Makedirs _ _) |- _ => destruct u end.
  right. answer_call respond; [|left; eexists _, _; by rewrite <- !app_assoc].
  right. answer_call respond.
  { left. eexists _, _, _. by rewrite <- !app_assoc. }
  right. answer_call respond.
  - left. eexists _, _, _, _. by rewrite <- !app_assoc.
  - right. eexists _, _, _, _. by rewrite <- !app_assoc.
Qed.

(** X11: when [_initialize_db] goes through, the manager holds the client
    it opened at the configured path and a collection of the configured
    name.  A collection the store already has is taken as it is:
    [create_collection] is called only after [get_collection] raised, with
    the fixed description, and one printed line tells which of the two
    happened. *)
Theorem initialize_db_opens_or_creates (s s' : state W) :
  _initialize_db respond s = (Ok tt, s') ->
  exists cl c,
    self s'
    = Manager (db_path (self s)) (collection_name (self s))
        (embedding_model (self s)) (Some cl) (Some c)
    /\ ((new_events s s'
         = [ Ev (Makedirs (db_path (self s)) true) (Ok tt);
             Ev (PersistentClient (db_path (self s)) false true) (Ok cl);
             Ev (GetCollection cl (collection_name (self s))) (Ok c) ]
         /\ stdout s'
            = stdout s ++
              [("Loaded existing collection: "
                  ++ collection_name (self s))%string])
        \/ (exists e,
              new_events s s'
              = [ Ev (Makedirs (db_path (self s)) true) (Ok tt);
                  Ev (PersistentClient (db_path (self s)) false true) (Ok cl);
                  Ev (GetCollection cl (collection_name (self s))) (Raise e);
                  Ev (CreateCollection cl (collection_name (self s))
                        collection_metadata) (Ok c) ]
              /\ stdout s'
                 = stdout s ++
                   [("Created new collection: "
                       ++ collection_name (self s))%string])).
Proof.
  intros Hrun.
  destruct (initialize_db_run s)
    as [(e & w & H) | [(e & w & H) | [(cl & c & w & H)
       | [(cl & e & c & w & H) | (cl & e & e' & w & H)]]]];
    rewrite H in Hrun; inversion Hrun; subst; clear Hrun;
    exists cl, c; (split; [done|]);
    (erewrite new_events_app by reflexivity); cbn; eauto.
Qed.

(** X12: when [_initialize_db] fails, the exception it raises carries the
    text of the exception of its last call behind a fixed prefix; that call
    is [makedirs], the opening of the client or [create_collection], never
    [get_collection].  Nothing is printed and the collection attribute is
    not written; the client attribute is, as soon as the client was
    opened. *)
Theorem initialize_db_failure (s s' : state W) (msg : exn) :
  _initialize_db respond s = (Raise msg, s') ->
  exists ev e,
    last (new_events s s') = Some ev
    /\ error_of ev = Some e
    /\ msg = ("Failed to initialize vector database: " ++ e)%string
    /\ call_name ev ∈ ["makedirs"; "PersistentClient"; "create_collection"]
    /\ stdout s' = stdout s
    /\ collection (self s') = collection (self s)
    /\ db_path (self s') = db_path (self s)
    /\ collection_name (self s') = collection_name (self s)
    /\ (call_name ev = "create_collection" ->
        exists cl,
          client (self s') = Some cl
          /\ Ev (PersistentClient (db_path (self s)) false true) (Ok cl)
             ∈ new_events s s')
    /\ (call_name ev <> "create_collection" -> client (self s') = client (self s)).
Proof.
  intros Hrun.
  destruct (initialize_db_run s)
    as [(e & w & H) | [(e & w & H) | [(cl & c & w & H)
       | [(cl & e & c & w & H) | (cl & e & e' & w & H)]]]];
    rewrite H in Hrun; inversion Hrun; subst; clear Hrun;
    (erewrite new_events_app by reflexivity); cbn.
  - eexists _, e. repeat (split; [done || set_solver|]); try done.
  - eexists _, e. repeat (split; [done || set_solver|]); try done.
  - eexists _, e'. repeat (split; [done || set_solver|]); try done.
Qed.

End Initialization.

(** ** Construction *)

Section Construction.

Context {W : Type} (respond : forall c : call, W -> result (reply c) * W).

(** The constructor loads the model, then opens the store from a manager
    that has neither client nor collection. *)
Lemma init_run (s : state W) :
  (exists e w,
     __init__ respond s
     = (Raise e,
        State (self s) w
          (trace s ++
           [Ev (SentenceTransformer config.EMBEDDING_MODEL "cpu") (Raise e)])
          (stdout s)))
  \/ (exists m w,
        __init__ respond s
        = _initialize_db respond
            (State
               (Manager config.VECTOR_DB_PATH config.COLLECTION_NAME m
                  None None)
               w
               (trace s ++
                [Ev (SentenceTransformer config.EMBEDDING_MODEL "cpu") (Ok m)])
               (stdout s))).
Proof.
  unfold __init__, mbind, M_bind, ext.
  destruct (respond (SentenceTransformer config.EMBEDDING_MODEL "cpu") (world s))
    as [[m|e] w]; [right|left]; by eexists _, _.
Qed.

(** X13: construction fails in one of two ways.  When loading the model
    raises, that exception leaves the constructor as it is and nothing else
    was called: the store was not touched.  Otherwise the exception comes
    from opening the store and carries the fixed prefix before the text of
    the exception of the last call. *)
Theorem constructor_failure (s s' : state W) (msg : exn) :
  __init__ respond s = (Raise msg, s') ->
  (new_events s s'
   = [Ev (SentenceTransformer config.EMBEDDING_MODEL "cpu") (Raise msg)]
   /\ self s' = self s)
  \/ (exists m ev e,
        head (new_events s s')
        = Some (Ev (SentenceTransformer config.EMBEDDING_MODEL "cpu") (Ok m))
        /\ last (new_events s s') = Some ev
        /\ error_of ev = Some e
        /\ call_name ev ∈ ["makedirs"; "PersistentClient"; "create_collection"]
        /\ msg = ("Failed to initialize vector database: " ++ e)%string).
Proof.
  intros Hrun.
  destruct (init_run s) as [(e & w & H) | (m & w & H)];
    rewrite H in Hrun.
  { inversion Hrun; subst. left.
    by erewrite new_events_app by reflexivity. }
  right. clear H.
  match type of Hrun with
  | _initialize_db respond ?s1 = _ =>
      destruct (initialize_db_run respond s1)
        as [(e & w1 & H) | [(e & w1 & H) | [(cl & c & w1 & H)
           | [(cl & e & c & w1 & H) | (cl & e & e' & w1 & H)]]]];
      cbn [self trace stdout db_path collection_name embedding_model
           collection] in H;
      rewrite H in Hrun; inversion Hrun; subst; clear Hrun H
  end;
    (erewrite new_events_app by (cbn; rewrite <- ?app_assoc; reflexivity));
    cbn; eexists m, _, _;
    repeat (split; [done || set_solver|]); done.
Qed.

End Construction.

(** ** Clearing and deleting, outcome by outcome *)

Section Lifecycle.

Context {W : Type} (respond : forall c : call, W -> result (reply c) * W).

(** [delete_database] up to the re-initialisation: either the reset, the
    existence test or the removal raised and the method is over, or all of
    them went through and the rest is [_initialize_db]. *)
Lemma delete_database_run (s : state W) :
  (exists e w before ev,
     delete_database respond s
     = (Ok false,
        State (self s) w (trace s ++ before ++ [ev])
          (stdout s ++ [("Error deleting database: " ++ e)%string]))
     /\ error_of ev = Some e
     /\ Forall (fun ev => failed ev = false) before
     /\ call_name <$> before ++ [ev] `sublist_of` ["reset"; "exists"; "rmtree"])
  \/ (exists w before,
        delete_database respond s
        = match _initialize_db respond
                  (State (self s) w (trace s ++ before) (stdout s)) with
          | (Ok _, s2) => (Ok true, s2)
          | (Raise e, s2) =>
              (Ok false,
               State (self s2) (world s2) (trace s2)
                 (stdout s2 ++ [("Error deleting database: " ++ e)%string]))
          end
        /\ Forall (fun ev => failed ev = false) before
        /\ call_name <$> before `sublist_of` ["reset"; "exists"; "rmtree"]).
Proof.
  unfold delete_database, try_except, mbind, M_bind, mret, M_ret, attr, ext.
  cbn -[_initialize_db].
  assert (Hend : forall s1 : state W,
            (let (r, s') :=
               let (r, s') := _initialize_db respond s1 in
               match r with
               | Ok _ => (Ok true, s')
               | Raise e => (Raise e, s')
               end in
             match r with
             | Ok a => (Ok a, s')
             | Raise e =>
                 (Ok false,
                  State (self s') (world s') (trace s')
                    (stdout s' ++ [("Error deleting database: " ++ e)%string]))
             end)
            = match _initialize_db respond s1 with
              | (Ok _, s2) => (Ok true, s2)
              | (Raise e, s2) =>
                  (Ok false,
                   State (self s2) (world s2) (trace s2)
                     (stdout s2 ++ [("Error deleting database: " ++ e)%string]))
              end).
  { intros s1. by destruct (_initialize_db respond s1) as [[[]|e] s2]. }
  destruct (client (self s)) as [cl|] eqn:Hcl; cbn -[_initialize_db].
  - answer_call respond; cbn -[_initialize_db].
    2:{ left. eexists _, _, [], _. split; [reflexivity|].
        repeat split; [constructor | cbn; sublist_by_scan]. }
    match goal with u : reply (ClientReset _) |- _ => destruct u end.
    answer_call respond; cbn -[_initialize_db].
    2:{ left. eexists _, _, [_], _. rewrite <- !app_assoc.
        split; [reflexivity|].
        repeat split; [by repeat constructor | cbn; sublist_by_scan]. }
    match goal with b : reply (PathExists _) |- _ => destruct b end;
      cbn -[_initialize_db].
    + answer_call respond; cbn -[_initialize_db].
      2:{ left. eexists _, _, [_; _], _. rewrite <- !app_assoc.
          split; [reflexivity|].
          repeat split; [by repeat constructor | cbn; sublist_by_scan]. }
      match goal with u : reply (Rmtree _) |- _ => destruct u end.
      right. eexists _, [_; _; _]. rewrite <- !app_assoc.
      split; [apply Hend|]. split; [by repeat constructor|cbn; sublist_by_scan].
    + right. eexists _, [_; _]. rewrite <- !app_assoc.
      split; [apply Hend|]. split; [by repeat constructor|cbn; sublist_by_scan].
  - answer_call respond; cbn -[_initialize_db].
    2:{ left. eexists _, _, [], _.
        split; [reflexivity|].
        repeat split; [by repeat constructor | cbn; sublist_by_scan]. }
    match goal with b : reply (PathExists _) |- _ => destruct b end;
      cbn -[_initialize_db].
    + answer_call respond; cbn -[_initialize_db].
      2:{ left. eexists _, _, [_], _. rewrite <- !app_assoc.
          split; [reflexivity|].
          repeat split; [by repeat constructor | cbn; sublist_by_scan]. }
      match goal with u : reply (Rmtree _) |- _ => destruct u end.
      right. eexists _, [_; _]. rewrite <- !app_assoc.
      split; [apply Hend|]. split; [by repeat constructor|cbn; sublist_by_scan].
    + right. eexists _, [_].
      split; [apply Hend|]. split; [by repeat constructor|cbn; sublist_by_scan].
Qed.

(** Every run of [clear_collection] on a manager that has a collection. *)
Lemma clear_collection_run (s : state W) (c : collection_ref) :
  collection (self s) = Some c ->
  exists (b : bool) w log out me',
    clear_collection respond s
    = (Ok (PBool b), State me' w (trace s ++ log) (stdout s ++ out))
    /\ clear_tail (self s) log b out me'.
Proof.
  intros Hc. unfold clear_collection. unfold_monad. cbn. rewrite Hc.
  destruct (client (self s)) as [cl|] eqn:Hcl; cbn.
  2:{ eexists false, _, [], [_], _. rewrite app_nil_r.
      split; [reflexivity|]. by constructor. }
  answer_call respond.
  2:{ eexists false, _, [_], [_], _. split; [reflexivity|]. by constructor. }
  match goal with u : reply (DeleteCollection _ _) |- _ => destruct u end.
  answer_call respond.
  - eexists true, _, [_; _], [], _. rewrite <- !app_assoc, app_nil_r, Hcl.
    split; [reflexivity|]. by constructor.
  - eexists false, _, [_; _], [_], _. rewrite <- !app_assoc.
    split; [reflexivity|]. by constructor.
Qed.

Lemma fails_last_app (before log : list event) :
  Forall (fun ev => failed ev = false) before ->
  fails_last log -> fails_last (before ++ log).
Proof.
  intros Hbefore Hlog i ev Hi Hf.
  destruct (decide (i < length before)%nat) as [Hlt|Hge].
  - rewrite lookup_app_l in Hi by done.
    rewrite Forall_lookup in Hbefore. specialize (Hbefore _ _ Hi). congruence.
  - rewrite lookup_app_r in Hi by lia.
    specialize (Hlog _ _ Hi Hf). rewrite length_app. lia.
Qed.

(** The log of a run of [_initialize_db] has its failed call last. *)
Lemma initialize_db_fails_last (s : state W) :
  exists log,
    trace (_initialize_db respond s).2 = trace s ++ log /\ fails_last log.
Proof.
  destruct (initialize_db_run respond s)
    as [(e & w & H) | [(e & w & H) | [(cl & c & w & H)
       | [(cl & e & c & w & H) | (cl & e & e' & w & H)]]]];
    rewrite H; cbn [snd trace]; eexists; (split; [reflexivity|]);
    intros i ev Hi Hf.
  all: repeat (destruct i as [|i];
               [cbn in Hi; injection Hi as <-;
                first [discriminate Hf | reflexivity]|]).
  all: cbn in Hi; discriminate Hi.
Qed.

End Lifecycle.

Section LifecycleOutcomes.

Context {W : Type} (respond : forall c : call, W -> result (reply c) * W).

(** X14: when [delete_database] returns [False], the manager still has the
    collection handle, the path, the name and the model it had, and one
    line was printed with the text of the exception - behind both prefixes
    when the exception came from the re-initialisation. *)
Theorem delete_database_failure_keeps_collection (s : state W) :
  (delete_database respond s).1 = Ok false ->
  let s' := (delete_database respond s).2 in
  collection (self s') = collection (self s)
  /\ db_path (self s') = db_path (self s)
  /\ collection_name (self s') = collection_name (self s)
  /\ embedding_model (self s') = embedding_model (self s)
  /\ exists e : exn,
       stdout s' = stdout s ++ [("Error deleting database: " ++ e)%string]
       /\ (("makedirs" ∈ call_name <$> new_events s s') ->
           exists e0,
             e = ("Failed to initialize vector database: " ++ e0)%string).
Proof.
  cbn zeta.
  destruct (delete_database_run respond s)
    as [(e & w & before & ev & Hrun & _ & _ & Hnames)
       | (w & before & Hrun & _ & Hnames)];
    rewrite Hrun; cbn [fst snd self stdout].
  { intros _. repeat (split; [done|]). exists e. split; [done|].
    erewrite new_events_app by reflexivity. intros Hin.
    pose proof (elem_of_sublist _ _ _ Hin Hnames) as Hin'.
    repeat (apply elem_of_cons in Hin' as [Hin'|Hin']; [discriminate|]).
    by apply elem_of_nil in Hin'. }
  match goal with
  | |- context [ _initialize_db respond ?s1 ] =>
      destruct (initialize_db_run respond s1)
        as [(e & w1 & H) | [(e & w1 & H) | [(cl & c & w1 & H)
           | [(cl & e & c & w1 & H) | (cl & e & e' & w1 & H)]]]];
      cbn [self trace stdout db_path collection_name embedding_model
           collection] in H;
      rewrite H; cbn [fst snd self stdout db_path collection_name
                      embedding_model collection]
  end; try discriminate; intros _; repeat (split; [done|]);
    eexists; (split; [reflexivity|]); intros _; by eexists.
Qed.

(** X15: [delete_database] stops at the first call whose exception it does
    not handle: in the log of every run such a call is the last one.  After
    a failed reset the directory is not removed, and after a failed removal
    the store is not opened again. *)
Theorem delete_database_stops_at_first_failure (s : state W) :
  fails_last (new_events s (delete_database respond s).2).
Proof.
  destruct (delete_database_run respond s)
    as [(e & w & before & ev & Hrun & _ & Hbefore & _)
       | (w & before & Hrun & Hbefore & _)];
    rewrite Hrun; cbn [snd].
  { erewrite new_events_app by reflexivity.
    apply fails_last_app; [done|].
    intros [|i] ev' Hi Hf; [done|]. cbn in Hi. discriminate Hi. }
  match goal with
  | |- context [ _initialize_db respond ?s1 ] =>
      destruct (initialize_db_fails_last respond s1) as (log & Htr & Hlog);
      destruct (_initialize_db respond s1) as [[[]|e] s2]
  end; cbn [snd trace] in *;
    (erewrite new_events_app by (rewrite Htr, <- app_assoc; reflexivity));
    by apply fails_last_app.
Qed.


(** A call of a public method keeps an initialised manager initialised,
    with the path, the name and the model it had. *)
Lemma after_call_keeps_initialized (m : method) (s : state W) :
  initialized (self s) ->
  initialized (self (after_call respond m s))
  /\ db_path (self (after_call respond m s)) = db_path (self s)
  /\ collection_name (self (after_call respond m s)) = collection_name (self s)
  /\ embedding_model (self (after_call respond m s)) = embedding_model (self s).
Proof.
  intros [[cl0 Hcl] [c0 Hc]]. destruct m as [emails|query n| | |]; cbn.
  - destruct (add_emails_run respond emails s)
      as [[_ Hrun] | (_ & us & tail & b & w & out & Hrun & _)];
      rewrite Hrun; cbn; unfold initialized; rewrite Hcl, Hc; eauto.
  - destruct (search_emails_run respond query n s)
      as [[_ Hrun] | (c & hits & w & log & out & _ & Hrun & _)];
      rewrite Hrun; cbn; unfold initialized; rewrite Hcl, Hc; eauto.
  - destruct (get_collection_info_run respond s)
      as [[_ Hrun] | (c & r & info & w & out & _ & Hrun)];
      rewrite Hrun; cbn; unfold initialized; rewrite Hcl, Hc; eauto.
  - destruct (clear_collection_run respond s c0 Hc)
      as (b & w & log & out & me' & Hrun & Htail).
    rewrite Hrun. cbn. unfold initialized.
    destruct Htail; cbn; rewrite ?Hcl, ?Hc; eauto.
  - destruct (delete_database_run respond s)
      as [(e & w & before & ev & Hrun & _)
         | (w & before & Hrun & _)];
      rewrite Hrun; cbn [snd self].
    { unfold initialized. rewrite Hcl, Hc. eauto. }
    match goal with
    | |- context [ _initialize_db respond ?s1 ] =>
        destruct (initialize_db_run respond s1)
          as [(e & w1 & H) | [(e & w1 & H) | [(cl & c & w1 & H)
             | [(cl & e & c & w1 & H) | (cl & e & e' & w1 & H)]]]];
        cbn [self trace stdout db_path collection_name embedding_model
             collection] in H;
        rewrite H; cbn
    end; unfold initialized; cbn; rewrite ?Hcl, ?Hc; eauto.
Qed.

Lemma after_calls_keep_initialized (ms : list method) :
  forall s : state W,
    initialized (self s) ->
    initialized (self (after_calls respond ms s))
    /\ db_path (self (after_calls respond ms s)) = db_path (self s)
    /\ collection_name (self (after_calls respond ms s))
       = collection_name (self s)
    /\ embedding_model (self (after_calls respond ms s))
       = embedding_model (self s).
Proof.
  unfold after_calls.
  induction ms as [|m ms IH]; intros s Hi; cbn; [done|].
  destruct (after_call_keeps_initialized m s Hi) as (Hi' & Hp & Hn & Hm).
  destruct (IH _ Hi') as (? & -> & -> & ->). done.
Qed.

(** X17: a manager that the constructor returned stays initialised under
    any sequence of calls of the five public methods, whatever the outside
    world answers: client and collection are always set, the path and the
    collection name are the configured ones, the model is the one loaded.
    So [clear_collection] returns a boolean on every manager that is
    reached this way. *)
Theorem constructed_manager_stays_initialized
    (s0 s : state W) (ms : list method) :
  __init__ respond s0 = (Ok tt, s) ->
  let s' := after_calls respond ms s in
  initialized (self s')
  /\ db_path (self s') = config.VECTOR_DB_PATH
  /\ collection_name (self s') = config.COLLECTION_NAME
  /\ embedding_model (self s') = embedding_model (self s)
  /\ exists (b : bool) s'',
       clear_collection respond s' = (Ok (PBool b), s'').
Proof.
  intros Hinit. cbn zeta.
  assert (Hs : initialized (self s)
               /\ db_path (self s) = config.VECTOR_DB_PATH
               /\ collection_name (self s) = config.COLLECTION_NAME).
  { destruct (init_run respond s0) as [(e & w & H) | (m & w & H)];
      rewrite H in Hinit; [discriminate|]. clear H.
    match type of Hinit with
    | _initialize_db respond ?s1 = _ =>
        destruct (initialize_db_run respond s1)
          as [(e & w1 & H) | [(e & w1 & H) | [(cl & c & w1 & H)
             | [(cl & e & c & w1 & H) | (cl & e & e' & w1 & H)]]]];
        cbn [self trace stdout db_path collection_name embedding_model
             collection] in H;
        rewrite H in Hinit; inversion Hinit; subst; clear Hinit H
    end; cbn; unfold initialized; cbn; eauto. }
  clear Hinit. destruct Hs as (Hi0 & Hp0 & Hn0).
  destruct (after_calls_keep_initialized ms s Hi0) as (Hi & Hp & Hn & Hm).
  repeat (split; [congruence|]).
  destruct Hi as [_ [c Hc]].
  by apply (clear_collection_initialized_returns_bool respond _ c).
Qed.

End LifecycleOutcomes.

Lemma initialize_db_opens_or_creates_witness :
  exists cl c,
    self (_initialize_db (Fake.respond Fake.reliable) Fake.blank).2
    = Manager (db_path (self Fake.blank)) (collection_name (self Fake.blank))
        (embedding_model (self Fake.blank)) (Some cl) (Some c).
Proof.
  assert (H : _initialize_db (Fake.respond Fake.reliable) Fake.blank
              = (Ok tt, (_initialize_db (Fake.respond Fake.reliable)
                           Fake.blank).2)) by (vm_compute; reflexivity).
  destruct (initialize_db_opens_or_creates (Fake.respond Fake.reliable)
              Fake.blank _ H) as (cl & c & Hself & _).
  exists cl, c. exact Hself.
Defined.

Lemma initialize_db_failure_witness :
  exists ev e,
    last (new_events Fake.blank
            (_initialize_db (Fake.respond Fake.no_create) Fake.blank).2)
    = Some ev
    /\ error_of ev = Some e
    /\ call_name ev ∈ ["makedirs"; "PersistentClient"; "create_collection"].
Proof.
  assert (H : _initialize_db (Fake.respond Fake.no_create) Fake.blank
              = (Raise "Failed to initialize vector database: unavailable",
                 (_initialize_db (Fake.respond Fake.no_create) Fake.blank).2))
    by (vm_compute; reflexivity).
  destruct (initialize_db_failure (Fake.respond Fake.no_create)
              Fake.blank _ _ H) as (ev & e & Hlast & Herr & _ & Hname & _).
  exists ev, e. exact (conj Hlast (conj Herr Hname)).
Defined.

Lemma constructor_failure_witness :
  exists m,
    head (new_events Fake.blank
            (__init__ (Fake.respond Fake.no_client) Fake.blank).2)
    = Some (Ev (SentenceTransformer config.EMBEDDING_MODEL "cpu") (Ok m)).
Proof.
  assert (H : __init__ (Fake.respond Fake.no_client) Fake.blank
              = (Raise "Failed to initialize vector database: unavailable",
                 (__init__ (Fake.respond Fake.no_client) Fake.blank).2))
    by (vm_compute; reflexivity).
  destruct (constructor_failure (Fake.respond Fake.no_client)
              Fake.blank _ _ H) as [[Hlog _] | (m & ev & e & Hhead & _)].
  - exfalso. revert Hlog. vm_compute. discriminate.
  - exists m. exact Hhead.
Defined.

Lemma delete_database_failure_keeps_collection_witness :
  collection
    (self (delete_database (Fake.respond Fake.no_rmtree) Fake.stocked).2)
  = collection (self Fake.stocked).
Proof.
  assert (H : (delete_database (Fake.respond Fake.no_rmtree) Fake.stocked).1
              = Ok false) by (vm_compute; reflexivity).
  exact (proj1 (delete_database_failure_keeps_collection
                  (Fake.respond Fake.no_rmtree) Fake.stocked H)).
Defined.


Lemma constructed_manager_stays_initialized_witness :
  initialized
    (self (after_calls (Fake.respond Fake.no_rmtree)
             [ AddEmails [Fake.hello]; ClearCollection; DeleteDatabase;
               SearchEmails "hello" 3; ClearCollection ]
             Fake.ready)).
Proof.
  assert (H : __init__ (Fake.respond Fake.no_rmtree) Fake.blank
              = (Ok tt, Fake.ready)) by (vm_compute; reflexivity).
  exact (proj1 (constructed_manager_stays_initialized
                  (Fake.respond Fake.no_rmtree) Fake.blank Fake.ready
                  [ AddEmails [Fake.hello]; ClearCollection; DeleteDatabase;
                    SearchEmails "hello" 3; ClearCollection ] H)).
Defined.

(** ** Which collection the calls go to *)

Section Addressing.

Context {W : Type} (respond : forall c : call, W -> result (reply c) * W).

Lemma uuid_events_address (c : collection_ref) (us : list string) :
  Forall (addresses c) (uuid_events us).
Proof. unfold uuid_events. apply Forall_fmap, Forall_true. done. Qed.

Lemma add_emails_addresses (emails : list (gmap string pyval))
    (s : state W) (c : collection_ref) :
  collection (self s) = Some c ->
  Forall (addresses c) (new_events s (add_emails respond emails s).2).
Proof.
  intros Hc.
  destruct (add_emails_run respond emails s)
    as [[_ Hrun] | (_ & us & tail & b & w & out & Hrun & Htail)];
    rewrite Hrun; cbn [snd].
  { by rewrite new_events_same. }
  erewrite new_events_app by reflexivity.
  apply Forall_app. split; [apply uuid_events_address|].
  destruct Htail; repeat constructor; cbn; congruence.
Qed.

Lemma search_emails_addresses (query : string) (n : Z)
    (s : state W) (c : collection_ref) :
  collection (self s) = Some c ->
  Forall (addresses c) (new_events s (search_emails respond query n s).2).
Proof.
  intros Hc.
  destruct (search_emails_run respond query n s)
    as [[_ Hrun] | (c0 & hits & w & log & out & Hc0 & Hrun & Htail)];
    rewrite Hrun; cbn [snd].
  { by rewrite new_events_same. }
  erewrite new_events_app by reflexivity.
  destruct Htail; repeat constructor; cbn; congruence.
Qed.

Lemma get_collection_info_addresses (s : state W) (c : collection_ref) :
  collection (self s) = Some c ->
  Forall (addresses c) (new_events s (get_collection_info respond s).2).
Proof.
  intros Hc.
  destruct (get_collection_info_run respond s)
    as [[_ Hrun] | (c0 & r & info & w & out & Hc0 & Hrun)];
    rewrite Hrun; cbn [snd].
  { by rewrite new_events_same. }
  erewrite new_events_app by reflexivity.
  repeat constructor; cbn; congruence.
Qed.

(** The three methods that work on the items of a collection. *)
Lemma item_call_addresses (m : method) (s : state W) (c : collection_ref) :
  m <> ClearCollection -> m <> DeleteDatabase ->
  collection (self s) = Some c ->
  Forall (addresses c) (new_events s (after_call respond m s)).
Proof.
  intros Hclear Hdelete Hc. destruct m; cbn; try done.
  - by apply add_emails_addresses.
  - by apply search_emails_addresses.
  - by apply get_collection_info_addresses.
Qed.

(** X18: every [add], [query] and [count] that [add_emails],
    [search_emails] and [get_collection_info] make is made on the
    collection the manager holds at the time of the call. *)
Theorem calls_address_current_collection
    (s : state W) (c : collection_ref) :
  collection (self s) = Some c ->
  (forall emails,
     Forall (addresses c) (new_events s (add_emails respond emails s).2))
  /\ (forall query n,
        Forall (addresses c) (new_events s (search_emails respond query n s).2))
  /\ Forall (addresses c) (new_events s (get_collection_info respond s).2).
Proof.
  intros Hc. split; [|split].
  - intros emails. by apply add_emails_addresses.
  - intros query n. by apply search_emails_addresses.
  - by apply get_collection_info_addresses.
Qed.

(** X19: after an [add_emails] that returned [True], searching and counting
    go to the collection the items were added to. *)
Theorem add_then_search_same_collection
    (emails : list (gmap string pyval)) (s s1 : state W) :
  add_emails respond emails s = (Ok true, s1) ->
  exists c embeddings documents metadatas ids,
    last (trace s1)
    = Some (Ev (CollectionAdd c embeddings documents metadatas ids) (Ok tt))
    /\ (forall query n,
          Forall (addresses c)
            (new_events s1 (search_emails respond query n s1).2))
    /\ Forall (addresses c)
         (new_events s1 (get_collection_info respond s1).2).
Proof.
  intros Hrun.
  destruct (add_emails_run respond emails s)
    as [[_ H] | (_ & us & tail & b & w & out & H & Htail)];
    rewrite H in Hrun; [discriminate|].
  injection Hrun as -> <-.
  inversion Htail as [| | | |c embeddings Hlen Hc]; subst.
  eexists c, embeddings, _, _, us.
  split.
  { cbn [trace]. rewrite !app_assoc.
    change [?a; ?b] with ([a] ++ [b]). rewrite app_assoc. apply last_snoc. }
  split.
  - intros query n. by apply search_emails_addresses.
  - by apply get_collection_info_addresses.
Qed.

(** X20: after a [clear_collection] that returned [True], adding, searching
    and counting go to the collection that [create_collection] just
    returned, not to the one that was deleted. *)
Theorem clear_collection_switches_collection (s s1 : state W) :
  clear_collection respond s = (Ok (PBool true), s1) ->
  exists cl c',
    last (trace s1)
    = Some (Ev (CreateCollection cl (collection_name (self s))
                  collection_metadata) (Ok c'))
    /\ forall m,
         m <> ClearCollection -> m <> DeleteDatabase ->
         Forall (addresses c') (new_events s1 (after_call respond m s1)).
Proof.
  intros Hrun.
  destruct (collection (self s)) as [c|] eqn:Hc.
  2:{ unfold clear_collection in Hrun. unfold_monad. cbn in Hrun.
      rewrite Hc in Hrun. discriminate. }
  destruct (clear_collection_run respond s c Hc)
    as (b & w & log & out & me' & H & Htail).
  rewrite H in Hrun. injection Hrun as -> <-.
  inversion Htail as [| | |cl c' Hcl]; subst.
  exists cl, c'. split.
  { cbn [trace]. change [?a; ?b] with ([a] ++ [b]).
    rewrite app_assoc. apply last_snoc. }
  intros m Hm1 Hm2. by apply item_call_addresses.
Qed.


End Addressing.

(** ** Metadata *)

(** X22: the metadata built for a record does not depend on its text:
    setting, changing or removing the text field leaves it the same. *)
Theorem metadata_of_ignores_text (r : gmap string pyval) (v : pyval) :
  metadata_of (<["text_content" := v]> r) = metadata_of r
  /\ metadata_of (delete "text_content" r) = metadata_of r.
Proof.
  split; apply map_eq; intros k; rewrite !metadata_of_lookup;
    case_decide as Hk; try done.
  - by rewrite lookup_insert_ne.
  - by rewrite lookup_delete_ne.
Qed.

(** X23: fields that are strings come back unchanged: the metadata of a
    record all of whose values are strings is that record without the text
    field. *)
Theorem metadata_of_string_fields (fields : gmap string string) :
  metadata_of (PStr <$> fields) = delete "text_content" fields.
Proof.
  apply map_eq. intros k. rewrite metadata_of_lookup, lookup_fmap.
  case_decide as Hk; subst.
  - by rewrite lookup_delete_eq.
  - rewrite lookup_delete_ne by done. by destruct (fields !! k).
Qed.

Lemma calls_address_current_collection_witness :
  Forall (addresses (CollectionRef 0))
    (new_events Fake.stocked
       (get_collection_info (Fake.respond Fake.reliable) Fake.stocked).2).
Proof.
  assert (Hc : collection (self Fake.stocked) = Some (CollectionRef 0))
    by reflexivity.
  exact (proj2 (proj2 (calls_address_current_collection
                         (Fake.respond Fake.reliable) Fake.stocked _ Hc))).
Defined.

Lemma add_then_search_same_collection_witness :
  exists c,
    Forall (addresses c)
      (new_events
         (add_emails (Fake.respond Fake.reliable) [Fake.hello] Fake.ready).2
         (get_collection_info (Fake.respond Fake.reliable)
            (add_emails (Fake.respond Fake.reliable) [Fake.hello]
               Fake.ready).2).2).
Proof.
  assert (H : add_emails (Fake.respond Fake.reliable) [Fake.hello] Fake.ready
              = (Ok true,
                 (add_emails (Fake.respond Fake.reliable) [Fake.hello]
                    Fake.ready).2)) by (vm_compute; reflexivity).
  destruct (add_then_search_same_collection (Fake.respond Fake.reliable)
              [Fake.hello] Fake.ready _ H)
    as (c & embeddings & documents & metadatas & ids & _ & _ & Hinfo).
  exists c. exact Hinfo.
Defined.

Lemma clear_collection_switches_collection_witness :
  exists c',
    Forall (addresses c')
      (new_events
         (clear_collection (Fake.respond Fake.reliable) Fake.stocked).2
         (after_call (Fake.respond Fake.reliable) (AddEmails [Fake.hello])
            (clear_collection (Fake.respond Fake.reliable) Fake.stocked).2)).
Proof.
  assert (H : clear_collection (Fake.respond Fake.reliable) Fake.stocked
              = (Ok (PBool true),
                 (clear_collection (Fake.respond Fake.reliable)
                    Fake.stocked).2)) by (vm_compute; reflexivity).
  destruct (clear_collection_switches_collection (Fake.respond Fake.reliable)
              Fake.stocked _ H) as (cl & c' & _ & Hcalls).
  exists c'. apply Hcalls; discriminate.
Defined.


Lemma get_collection_info_read_only_witness :
  collection (self Fake.stocked) = Some (CollectionRef 0).
Proof.
  apply (proj2 (proj2 (get_collection_info_read_only
                         (Fake.respond Fake.reliable) Fake.stocked))
           (CollectionRef 0) (Ok 1)).
  apply list_elem_of_here.
Defined.

(** ** Clearing a manager that has a collection *)

Section Clearing.

Context {W : Type} (respond : forall c : call, W -> result (reply c) * W).


End Clearing.


